(** * PaperSuRF: a shallow embedding of the ingestion and search pipeline

    The development follows the Python sources of the [papersurf] package:
    - [analysis.py]      : [Analysis.find_papers_by_similarity];
    - [paper.py]         : the [Paper] object and [Paper.load];
    - [command_line.py]  : [papers_load], [add_paper] and the
                           [CommandLineInterface] command callbacks.

    Conventions of the model.
    - A Python [str] is a Rocq [string] (a sequence of 8-bit characters);
      the character classes of [str.strip], [str.split], [str.lower] and of
      the regular expressions are the ASCII ones.  On a string of ASCII
      characters ([PyStr.is_ascii]) they are the classes of Python; on other
      strings Python also knows whitespace, letters and digits outside
      ASCII.  A statement that depends on how the characters of a string
      are classified is therefore made for strings of ASCII characters.
    - A Python [float] that is not a NaN is the rational number it denotes
      ([Q]); comparisons of floats are comparisons of these rationals.
    - The external systems (sentence encoder, keyword extractor, cosine
      similarity, read queries of the graph database, file system) are
      parameters of the sections that use them; what [tabulate] renders is
      kept symbolic.  The write queries of [add_paper]
      ([MERGE ... ON CREATE SET]) are modelled on an explicit property
      graph. *)

From Stdlib Require Import ZArith QArith Lia Lqa Ascii String List Sorted Permutation.
From stdpp Require Import base option list strings pretty gmap sorting.

Local Open Scope Z_scope.
Local Open Scope string_scope.
Local Open Scope list_scope.

(** ** Python string primitives *)

Module PyStr.

Definition nl : string := String (ascii_of_nat 10) EmptyString.

Definition code (c : ascii) : nat := nat_of_ascii c.

(** [c.isspace()] on ASCII: TAB, LF, VT, FF, CR, FS, GS, RS, US, SPACE.
    The class [\s] of [re] is the same set. *)
Definition is_space (c : ascii) : bool :=
  ((9 <=? code c) && (code c <=? 13) || (28 <=? code c) && (code c <=? 32))%nat.

(** the class [\d] of [re] on ASCII: the digits 0 to 9 *)
Definition is_digit (c : ascii) : bool :=
  ((48 <=? code c) && (code c <=? 57))%nat.

Definition is_upper (c : ascii) : bool :=
  ((65 <=? code c) && (code c <=? 90))%nat.

Definition is_lower (c : ascii) : bool :=
  ((97 <=? code c) && (code c <=? 122))%nat.

(** [c.lower()] on ASCII: the letters A to Z become a to z *)
Definition lower_char (c : ascii) : ascii :=
  if is_upper c then ascii_of_nat (code c + 32) else c.

(** [s.lower()] on ASCII *)
Fixpoint lower (s : string) : string :=
  match s with
  | EmptyString => EmptyString
  | String c s' => String (lower_char c) (lower s')
  end.

(** [s.isascii()]: every character of [s] is below 128 *)
Fixpoint is_ascii (s : string) : bool :=
  match s with
  | EmptyString => true
  | String c s' => (code c <? 128)%nat && is_ascii s'
  end.

(** [c in chars] *)
Fixpoint mem (c : ascii) (chars : string) : bool :=
  match chars with
  | EmptyString => false
  | String d chars' => Ascii.eqb c d || mem c chars'
  end.

Fixpoint lstrip_by (p : ascii -> bool) (s : string) : string :=
  match s with
  | EmptyString => EmptyString
  | String c s' => if p c then lstrip_by p s' else s
  end.

Fixpoint rstrip_by (p : ascii -> bool) (s : string) : string :=
  match s with
  | EmptyString => EmptyString
  | String c s' =>
      match rstrip_by p s' with
      | EmptyString => if p c then EmptyString else String c EmptyString
      | r => String c r
      end
  end.

(** [s.strip()] *)
Definition strip (s : string) : string := rstrip_by is_space (lstrip_by is_space s).

(** [s.rstrip(chars)] *)
Definition rstrip (chars : string) (s : string) : string :=
  rstrip_by (fun c => mem c chars) s.

(** the first whitespace-free word of [s] and what follows it *)
Fixpoint take_word (s : string) : string * string :=
  match s with
  | EmptyString => (EmptyString, EmptyString)
  | String c s' =>
      if is_space c then (EmptyString, s)
      else let '(w, rest) := take_word s' in (String c w, rest)
  end.

(** [s.split(maxsplit=n)]: split on runs of whitespace, at most [n]
    times; what is left after the [n]-th word, without its leading
    whitespace, is the last item. *)
Fixpoint split (maxsplit : nat) (s : string) : list string :=
  match lstrip_by is_space s with
  | EmptyString => []
  | s1 =>
      match maxsplit with
      | O => [s1]
      | S n => let '(w, rest) := take_word s1 in w :: split n rest
      end
  end.

(** [sep.join(l)] *)
Fixpoint join (sep : string) (l : list string) : string :=
  match l with
  | [] => EmptyString
  | [x] => x
  | x :: l' => x ++ sep ++ join sep l'
  end.

(** [s[:n]] for a non-negative [n] *)
Fixpoint take (n : nat) (s : string) : string :=
  match n, s with
  | S n', String c s' => String c (take n' s')
  | _, _ => EmptyString
  end.

(** [s.replace(old, new)] for a non-empty [old]: the occurrences are
    replaced from left to right and do not overlap; [skip] counts the
    characters of an occurrence that are still to be passed over. *)
Fixpoint replace_from (old new : string) (skip : nat) (s : string) : string :=
  match s with
  | EmptyString => EmptyString
  | String c s' =>
      match skip with
      | S k => replace_from old new k s'
      | O =>
          if String.prefix old s
          then new ++ replace_from old new (String.length old - 1) s'
          else String c (replace_from old new 0 s')
      end
  end.

Definition replace (old new : string) (s : string) : string :=
  replace_from old new 0 s.

(** [s.endswith(suffix)] *)
Definition endswith (suffix s : string) : bool :=
  let n := String.length s in
  let m := String.length suffix in
  (m <=? n)%nat && String.eqb (String.substring (n - m) m s) suffix.

(** The characters of a string, each as a string of length one (what
    iterating over a [str] yields). *)
Fixpoint chars (s : string) : list string :=
  match s with
  | EmptyString => []
  | String c s' => String c EmptyString :: chars s'
  end.

End PyStr.

(** ** The fragment of [re] that the program uses

    A backtracking matcher in continuation-passing style.  Quantifiers are
    greedy and apply to character classes only, which is all the two
    patterns of the program need; one capture group is recorded. *)

Module Regex.

Inductive re : Type :=
| Eps
| Chr (p : ascii -> bool)                           (* one character of a class *)
| Rep (p : ascii -> bool) (lo : nat) (hi : option nat) (* p{lo,hi}, p*, p+ *)
| Seq (r1 r2 : re)
| Opt (r : re)                                      (* (?:r)? *)
| Group (r : re).                                   (* (r), group 1 *)

(** the part of [s] in front of its suffix [rest] *)
Definition consumed (s rest : string) : string :=
  PyStr.take (String.length s - String.length rest) s.

Definition more (hi : option nat) : bool :=
  match hi with Some O => false | _ => true end.

(** Greedy repetition: take one more character when allowed and fall back
    to stopping here when the continuation fails further on. *)
Fixpoint rep {A} (p : ascii -> bool) (lo : nat) (hi : option nat)
    (s : string) (k : string -> option A) : option A :=
  let stop := if (lo =? 0)%nat then k s else None in
  match s with
  | String c s' =>
      if p c && more hi then
        match rep p (Nat.pred lo) (Nat.pred <$> hi) s' k with
        | Some x => Some x
        | None => stop
        end
      else stop
  | EmptyString => stop
  end.

Fixpoint run {A} (r : re) (s : string) (g : option string)
    (k : string -> option string -> option A) : option A :=
  match r with
  | Eps => k s g
  | Chr p =>
      match s with
      | String c s' => if p c then k s' g else None
      | EmptyString => None
      end
  | Rep p lo hi => rep p lo hi s (fun s' => k s' g)
  | Seq r1 r2 => run r1 s g (fun s' g' => run r2 s' g' k)
  | Opt r1 =>
      match run r1 s g k with
      | Some x => Some x
      | None => k s g
      end
  | Group r1 => run r1 s g (fun s' _ => k s' (Some (consumed s s')))
  end.

(** A match object: [m.start()], [m.group(0)], [m.group(1)]. *)
Record rmatch : Type := mk_match {
  start : nat;
  group0 : string;
  group1 : option string
}.

(** [re.match] at the front of [s] *)
Definition match_at (r : re) (s : string) : option (string * option string) :=
  run r s None (fun rest g => Some (consumed s rest, g)).

(** [re.search]: the match at the leftmost position that has one *)
Fixpoint search_from (r : re) (i : nat) (s : string) : option rmatch :=
  match match_at r s with
  | Some (g0, g1) => Some (mk_match i g0 g1)
  | None =>
      match s with
      | String _ s' => search_from r (S i) s'
      | EmptyString => None
      end
  end.

Definition search (r : re) (s : string) : option rmatch := search_from r 0 s.

(** literal text *)
Fixpoint lit (case_insensitive : bool) (s : string) : re :=
  match s with
  | EmptyString => Eps
  | String c s' =>
      Seq (Chr (fun d => if case_insensitive
                         then Ascii.eqb (PyStr.lower_char d) (PyStr.lower_char c)
                         else Ascii.eqb d c))
          (lit case_insensitive s')
  end.

(** [then_ k o]: continue with [k] on a result *)
Definition then_ {A B} (k : A -> B) (o : option A) : option B :=
  match o with
  | Some a => Some (k a)
  | None => None
  end.

End Regex.

(** ** Python list primitives *)

Module PyList.

(** [l[:n]] : for a non-negative [n] the first [n] elements, for a negative
    [n] all but the last [-n] elements. *)
Definition slice_to {A} (n : Z) (l : list A) : list A :=
  if (0 <=? n)%Z then take (Z.to_nat n) l
  else take (length l - Z.to_nat (- n))%nat l.

(** [sorted(l, key=key, reverse=True)].  Python's sort is stable, also in
    reverse mode: elements with equal keys keep their relative order.  A
    stable sort has one possible result, which the insertion sort below
    computes: [x] is put in front of the first element whose key is not
    strictly greater. *)
Section sorted_reverse.
Context {A : Type} (key : A -> Q).

Fixpoint insert_desc (x : A) (l : list A) : list A :=
  match l with
  | [] => [x]
  | y :: l' =>
      if Qle_bool (key y) (key x) then x :: y :: l'
      else y :: insert_desc x l'
  end.

Definition sorted_reverse (l : list A) : list A :=
  foldr insert_desc [] l.

(** descending order on keys *)
Definition desc (a b : A) : Prop := (key b <= key a)%Q.
End sorted_reverse.

End PyList.

(** ** analysis.py *)

Module Analysis.

(** A record of [query_search_by_semantic]: the [RETURN] clause binds the
    six keys in every record, a value may be [null].  As every key is
    bound, the defaults of [record.get] in the source are never used. *)
Record record : Type := mk_record {
  Filename : option string;
  Title : option string;
  Author : option string;
  Year : option string;
  Embedding : option (list Q);
  DOI : option string
}.

(** [[Title, Author, DOI, paper_similarity]] *)
Definition row : Type := (option string * option string * option string * Q)%type.

Definition similarity (r : row) : Q := snd r.

Section find_papers_by_similarity.
(** [sentence_transformer.encode] and sklearn's [cosine_similarity] *)
Variable encode : string -> list Q.
Variable cosine_similarity : list Q -> list Q -> Q.

(** The body of the [for record in result] loop; [papers] is the
    accumulator the source appends to. *)
Definition loop_body (query_vec : list Q) (threshold : Q)
    (papers : list row) (record : record) : list row :=
  match Embedding record with
  | None => papers                                 (* not paper_embedding *)
  | Some [] => papers                              (* not paper_embedding *)
  | Some paper_embedding =>
      let paper_similarity := cosine_similarity query_vec paper_embedding in
      if negb (Qle_bool threshold paper_similarity) (* similarity < threshold *)
      then papers
      else papers ++ [(Title record, Author record, DOI record, paper_similarity)]
  end.

Definition find_papers_by_similarity (result : list record)
    (query_text : string) (top_n : Z) (threshold : Q) : list row :=
  let query_vec := encode query_text in
  let papers := fold_left (loop_body query_vec threshold) result [] in
  PyList.slice_to top_n (PyList.sorted_reverse similarity papers).

(** *** Specification side: the records whose cosine similarity with the
    query embedding is at least the threshold *)

(** The similarity of a stored record, when it has an embedding. *)
Definition record_similarity (query_text : string) (r : record) : option Q :=
  match Embedding r with
  | None | Some [] => None
  | Some e => Some (cosine_similarity (encode query_text) e)
  end.

Definition qualifies (query_text : string) (threshold : Q) (r : record) : bool :=
  match record_similarity query_text r with
  | Some s => Qle_bool threshold s
  | None => false
  end.

Definition to_row (query_text : string) (r : record) : row :=
  (Title r, Author r, DOI r,
   default 0%Q (record_similarity query_text r)).

End find_papers_by_similarity.

End Analysis.

(** ** The graph store

    A property graph: labelled nodes carrying a map of properties, and typed
    relationships between node positions.  Only the write queries of
    [add_paper] are given a semantics here. *)

Module Graph.

(** Values that the ingestion passes around: a [str] or a list of [str]. *)
Inductive pval : Type :=
  | VStr (s : string)
  | VList (l : list string).

#[export] Instance pval_eq_dec : EqDecision pval.
Proof. solve_decision. Defined.

(** A stored property: such a value, or a vector of floats. *)
Inductive prop : Type :=
  | PVal (v : pval)
  | PVec (v : list Q).

Inductive label : Type := Paper | Author | Topic.

#[export] Instance label_eq_dec : EqDecision label.
Proof. solve_decision. Defined.

Record node : Type := mk_node {
  lbl : label;
  props : gmap string prop
}.

Inductive rel_type : Type := WROTE | HAS_TOPIC.

#[export] Instance rel_type_eq_dec : EqDecision rel_type.
Proof. solve_decision. Defined.

(** [(src)-[:rtype]->(dst)], the ends being positions in [nodes] *)
Record rel : Type := mk_rel {
  src : nat;
  rtype : rel_type;
  dst : nat
}.

#[export] Instance rel_eq_dec : EqDecision rel.
Proof. solve_decision. Defined.

Record graph : Type := mk_graph {
  nodes : list node;
  rels : list rel
}.

Definition empty : graph := mk_graph [] [].

(** The node pattern [(:l {k: v})]. *)
Definition matches (l : label) (k : string) (v : pval) (n : node) : bool :=
  bool_decide (lbl n = l) &&
  match props n !! k with
  | Some (PVal v') => bool_decide (v' = v)
  | _ => false
  end.

(** [MERGE (x:l {k: v}) ON CREATE SET x.k1 = v1, ...]: when a node matches
    the pattern nothing is written, otherwise a node is created with the
    property of the pattern and the properties of [ON CREATE SET]. *)
Definition merge_node (l : label) (k : string) (v : pval)
    (on_create : list (string * prop)) (g : graph) : graph :=
  if existsb (matches l k v) (nodes g) then g
  else
    let created :=
      fold_left (fun m kv => <[kv.1 := kv.2]> m) on_create {[ k := PVal v ]} in
    mk_graph (nodes g ++ [mk_node l created]) (rels g).

(** the positions of the nodes that the pattern [(:l {k: v})] matches *)
Definition match_nodes (l : label) (k : string) (v : pval) (g : graph) : list nat :=
  List.filter (fun i =>
                 match nodes g !! i with
                 | Some n => matches l k v n
                 | None => false
                 end)
              (seq 0 (length (nodes g))).

(** [MERGE (a)-[:t]->(b)] for one bound pair *)
Definition merge_rel (t : rel_type) (g : graph) (ends : nat * nat) : graph :=
  let r := mk_rel ends.1 t ends.2 in
  if bool_decide (r ∈ rels g) then g
  else mk_graph (nodes g) (rels g ++ [r]).

(** [MATCH (p:Paper {filename: f}), (a:Author {name: n})
     MERGE (a)-[:WROTE]->(p)]: one [MERGE] per row of the [MATCH]. *)
Definition merge_wrote (filename : pval) (name : string) (g : graph) : graph :=
  fold_left (merge_rel WROTE) 
    (p ← match_nodes Paper "filename" filename g;
     a ← match_nodes Author "name" (VStr name) g;
     [(a, p)])
    g.

(** [MATCH (p:Paper {filename: f}), (t:Topic {name: n})
     MERGE (p)-[:HAS_TOPIC]->(t)] *)
Definition merge_has_topic (filename : pval) (name : string) (g : graph) : graph :=
  fold_left (merge_rel HAS_TOPIC)
    (p ← match_nodes Paper "filename" filename g;
     t ← match_nodes Topic "name" (VStr name) g;
     [(p, t)])
    g.

(** The argument of [add_paper]: a [dict] with the keys below, each of
    which may be absent.  The keys are those that [add_paper] reads or that
    [command_add_papers_by_users] writes; note the two distinct keys
    [year] and [Year]. *)
Record paper_dict : Type := mk_paper_dict {
  d_path : option string;
  d_id : option string;
  d_filename : option string;
  d_Year : option string;
  d_year : option string;
  d_title : option string;
  d_text : option string;
  d_authors : option (list string);
  d_topics : option (list string);
  d_main_keyphrase : option string;
  d_doi : option pval
}.

Section add_paper.
(** [sentence_transformer.encode(_, convert_to_numpy=True).tolist()] *)
Variable encode : string -> list Q.

Definition add_paper (session : graph) (paper : paper_dict) : graph :=
  let filename := default "No filename" (d_filename paper) in
  let title := default "No title" (d_title paper) in
  let year := default "No year" (d_year paper) in
  let authors := default ["No authors"] (d_authors paper) in
  let topics := default ["No topics"] (d_topics paper) in
  let doi := default (VStr "NO DOI") (d_doi paper) in
  let main_keyphrase := default "No keyphrase" (d_main_keyphrase paper) in
  let embedding := encode main_keyphrase in
  (* Merge Paper node *)
  let g1 :=
    merge_node Paper "filename" (VStr filename)
      [("title", PVal (VStr title));
       ("year", PVal (VStr year));
       ("embedding", PVec embedding);
       ("doi", PVal doi)]
      session in
  (* Merge Author nodes and relationships *)
  let g2 :=
    fold_left (fun g author =>
                 merge_wrote (VStr filename) author
                   (merge_node Author "name" (VStr author) [] g))
              authors g1 in
  (* Merge Topic nodes and relationships *)
  fold_left (fun g topic =>
               merge_has_topic (VStr filename) topic
                 (merge_node Topic "name" (VStr topic) [] g))
            topics g2.
End add_paper.

(** The [Paper] nodes with a given file name. *)
Definition paper_nodes (filename : string) (g : graph) : list node :=
  List.filter (matches Paper "filename" (VStr filename)) (nodes g).

(** [g'] has the nodes of [g], unchanged and at the same positions, and
    possibly more nodes, none of which is a [Paper]. *)
Definition grows_without_papers (g g' : graph) : Prop :=
  exists extra, nodes g' = nodes g ++ extra /\ Forall (fun n => lbl n <> Paper) extra.

(** The properties with which [add_paper] creates a [Paper] node. *)
Definition created_props (filename title year : string) (embedding : list Q)
    (doi : pval) : gmap string prop :=
  <["doi" := PVal doi]>
    (<["embedding" := PVec embedding]>
       (<["year" := PVal (VStr year)]>
          (<["title" := PVal (VStr title)]>
             {[ "filename" := PVal (VStr filename) ]}))).

End Graph.

(** ** paper.py, and [papers_load] of command_line.py *)

Module Loader.

Import Graph.

Record Paper : Type := mk_Paper {
  path : string;
  filename : string;
  year : string;
  title : string;
  author : string;
  subject : string;
  text : string;
  topics : list string;
  main_keyphrase : string;
  doi : pval
}.

(** [Paper.__init__] *)
Definition Paper_init : Paper :=
  {| path := ""; filename := ""; year := ""; title := ""; author := "";
     subject := ""; text := "";
     topics := []; main_keyphrase := "No keyphrase"; doi := VList [] |}.

(** A PDF document as [pymupdf] presents it: the metadata dictionary and
    the text of each page. *)
Record document : Type := mk_document {
  metadata : gmap string string;
  pages : list string
}.

(** What the program sees of the file system.  [fs_listdir] and [fs_open]
    are [None] where [os.listdir] and [pymupdf.open] raise. *)
Record file_system : Type := mk_file_system {
  fs_exists : string -> bool;
  fs_isdir : string -> bool;
  fs_listdir : string -> option (list string);
  fs_open : string -> option document;
  fs_expanduser : string -> string
}.

Definition slash : ascii := ascii_of_nat 47.

Fixpoint has_slash (p : string) : bool :=
  match p with
  | EmptyString => false
  | String c p' => Ascii.eqb c slash || has_slash p'
  end.

(** [os.path.basename]: what follows the last slash *)
Fixpoint basename (p : string) : string :=
  match p with
  | EmptyString => EmptyString
  | String c p' =>
      if has_slash p' then basename p'
      else if Ascii.eqb c slash then p' else p
  end.

(** [os.path.join(a, b)] *)
Definition path_join (a b : string) : string :=
  if String.prefix "/" b then b
  else if String.eqb a "" || PyStr.endswith "/" a then a ++ b
  else a ++ "/" ++ b.

(** The pattern of the creation year: the letters D and colon, then a
    group of exactly four digits. *)
Definition year_pattern : Regex.re :=
  Regex.Seq (Regex.lit false "D:") (Regex.Group (Regex.Rep PyStr.is_digit 4 (Some 4%nat))).

(** [Paper.load]: the updated object and the returned flag, or [None] when
    [pymupdf.open] raises. *)
Definition load (fs : file_system) (self : Paper) (path' : string)
    : option (Paper * bool) :=
  match fs_open fs path' with
  | None => None
  | Some document =>
      let creation_date := default "" (metadata document !! "creationDate") in
      let match_ := Regex.search year_pattern creation_date in
      Some ({| path := path';
               filename := basename path';
               year := match match_ with
                       | Some m => default "" (Regex.group1 m)
                       | None => ""
                       end;
               title := default "" (metadata document !! "title");
               author := default "" (metadata document !! "author");
               subject := default "" (metadata document !! "subject");
               text := String.concat "" (pages document);
               topics := topics self;
               main_keyphrase := main_keyphrase self;
               doi := doi self |}, true)
  end.

(** *** DOI extraction *)

(** The class of the DOI suffix: one of the eight characters
    - . _ ; ( ) / : or an ASCII letter or digit. *)
Definition is_doi_char (c : ascii) : bool :=
  PyStr.mem c "-._;()/:" || PyStr.is_lower c || PyStr.is_upper c
  || PyStr.is_digit c || Ascii.eqb c "_".

(** The group of [doi_pattern]: 10, a dot, four to nine digits, a slash
    and a non-empty run of suffix characters. *)
Definition doi_core : Regex.re :=
  Regex.Seq (Regex.lit true "10.")
    (Regex.Seq (Regex.Rep PyStr.is_digit 4 (Some 9%nat))
       (Regex.Seq (Regex.lit true "/") (Regex.Rep is_doi_char 1 None))).

(** The prefix of [doi_pattern]: the letters doi, a colon and any
    whitespace. *)
Definition doi_prefix : Regex.re :=
  Regex.Seq (Regex.lit true "doi:") (Regex.Rep PyStr.is_space 0 None).

(** [doi_pattern], used with [re.IGNORECASE]: the prefix, optional and not
    captured, then group 1. *)
Definition doi_pattern : Regex.re :=
  Regex.Seq (Regex.Opt doi_prefix) (Regex.Group doi_core).

(** The characters that [rstrip] removes: full stop, comma, semicolon,
    round and square brackets, exclamation and question mark, double and
    single quote. *)
Definition doi_trailing : string :=
  ".,;()[]!?" ++ String (ascii_of_nat 34) "'".

(** The DOI step of the loop of [papers_load]. *)
Definition extract_doi (paper : Paper) : Paper :=
  let new_doi : string :=
    match Regex.search doi_pattern (text paper) with
    | Some match_ =>
        let doi_raw := PyStr.rstrip doi_trailing (default "" (Regex.group1 match_)) in
        "https://doi.org/" +:+ doi_raw
    | None =>
        match Regex.search doi_pattern (title paper) with
        | Some match_meta =>
            let doi_raw := PyStr.rstrip doi_trailing (Regex.group0 match_meta) in
            "https://doi.org/" +:+ PyStr.strip (PyStr.replace "doi:" "" doi_raw)
        | None => "NO PROVIDED DOI"
        end
    end in
  {| path := path paper; filename := filename paper; year := year paper;
     title := title paper; author := author paper; subject := subject paper;
     text := text paper; topics := topics paper;
     main_keyphrase := main_keyphrase paper; doi := VStr new_doi |}.

(** The topic step: [extracted_topics] is what the keyword extractor
    returns for the text, a list of (keyphrase, score) pairs. *)
Definition extract_topics (extracted_topics : list (string * Q)) (paper : Paper) : Paper :=
  match extracted_topics with
  | [] => paper
  | _ :: _ =>
      let topics' := map fst extracted_topics in
      {| path := path paper; filename := filename paper; year := year paper;
         title := title paper; author := author paper; subject := subject paper;
         text := text paper; topics := topics';
         main_keyphrase := default "" (head topics'); doi := doi paper |}
  end.

(** *** The DOI of a paper, as the specification words it *)

(** The first substring of [s] that matches the DOI pattern
    10.<4-9 digits>/<suffix>. *)
Definition first_doi (s : string) : option string :=
  match Regex.search doi_core s with
  | Some m => Some (Regex.group0 m)
  | None => None
  end.

(** The link of a matched DOI, with its trailing punctuation stripped. *)
Definition doi_link (d : string) : string :=
  "https://doi.org/" +:+ PyStr.rstrip doi_trailing d.

(** The text is searched first, then the title. *)
Definition specified_doi (text' title' : string) : string :=
  match first_doi text' with
  | Some d => doi_link d
  | None =>
      match first_doi title' with
      | Some d => doi_link d
      | None => "NO PROVIDED DOI"
      end
  end.

(** the first match of [doi_core] at the front of [s]: what is left of [s],
    and the group *)
Definition core_base (s : string) : option (string * option string) :=
  Regex.run doi_core s None (fun t h => Some (t, h)).

(** A character at which a match of [doi_core] can start. *)
Definition is_one (c : ascii) : bool :=
  Ascii.eqb (PyStr.lower_char c) (PyStr.lower_char "1").

Fixpoint all_chars (p : ascii -> bool) (s : string) : bool :=
  match s with
  | EmptyString => true
  | String c s' => p c && all_chars p s'
  end.

(** The primary keyphrase of a paper, given what the keyword extractor
    returns for its text: the first keyphrase, or the default string when
    there is none. *)
Definition primary_keyphrase (extracted_topics : list (string * Q)) : string :=
  match extracted_topics with
  | [] => "No keyphrase"
  | (keyphrase, _) :: _ => keyphrase
  end.

(** A call [output_writer(text)] or [output_writer(text, end)]. *)
Definition writer_call : Type := (string * option string)%type.

Section papers_load.
Variable fs : file_system.
(** [keyword_extractor.extract_keywords(text, top_n=5,
    keyphrase_ngram_range=(1, 7), stop_words=None, diversity=0.6)] *)
Variable extract_keywords : string -> list (string * Q).

(** The loop over the directory listing.  The result is the calls made to
    [output_writer] and the list [items], or [None] when an exception left
    the loop. *)
Fixpoint load_files (path' : string) (files : list string)
    (out : list writer_call) (items : list Paper)
    : list writer_call * option (list Paper) :=
  match files with
  | [] => (out, Some items)
  | file_name :: rest =>
      if negb (PyStr.endswith ".pdf" (PyStr.lower file_name)) then
        load_files path' rest
          (out ++ [("Error: " +:+ file_name +:+ " is not a PDF file. Skipping.", None)])
          items
      else
        let file_path := path_join path' file_name in
        let out := out ++ [("Phrasing file: " +:+ file_name, None)] in
        match load fs Paper_init file_path with
        | None => (out, None)
        | Some (_, false) =>
            load_files path' rest (out ++ [("Failed to load: " +:+ file_path, None)]) items
        | Some (paper, true) =>
            let out := out ++ [("Extracting DOI Link", Some "-------")] in
            let paper := extract_doi paper in
            let out := out ++ [("DOI link extracted", None);
                               ("Extracting Topics", Some "---------")] in
            let paper := extract_topics (extract_keywords (text paper)) paper in
            load_files path' rest (out ++ [("Topics extracted", None)]) (items ++ [paper])
        end
  end.

Definition papers_load (path' : string)
    : list writer_call * option (list Paper) :=
  let path' := fs_expanduser fs path' in
  if negb (fs_exists fs path') then ([], Some [])
  else
    match fs_listdir fs path' with
    | None => ([], None)
    | Some files => load_files path' files [] []
    end.

End papers_load.

End Loader.

(** ** command_line.py: the command line interface *)

Module Cli.

Import Graph Loader.

(** The values of the dictionary [self.commands]: the bound methods
    [self.command_exit], ..., which name the callbacks defined below. *)
Inductive command : Type :=
| self_command_exit
| self_command_help
| self_command_list_papers
| self_command_search
| self_command_search_by_similarity
| self_command_search_by_vsemantic
| self_command_add_papers_by_users.

#[export] Instance command_eq_dec : EqDecision command.
Proof. solve_decision. Defined.

(** [self.commands], in the order in which the source inserts the keys. *)
Definition commands : list (string * command) :=
  [ (* Long verison of commands *)
    ("exit", self_command_exit);
    ("help", self_command_help);
    ("list", self_command_list_papers);
    ("search", self_command_search);
    ("vsearch", self_command_search);
    ("simsearch", self_command_search_by_similarity);
    ("vsimsearch", self_command_search_by_vsemantic);
    ("add", self_command_add_papers_by_users);
    (* Shorthand version of commands *)
    ("e", self_command_exit);
    ("h", self_command_help);
    ("lp", self_command_list_papers);
    ("st", self_command_search);
    ("sa", self_command_search);
    ("sp", self_command_search);
    ("ss", self_command_search_by_similarity);
    ("vsh", self_command_search);
    ("vss", self_command_search_by_vsemantic);
    ("a", self_command_add_papers_by_users) ].

(** [d.get(k)] on a dictionary kept as an association list *)
Fixpoint dict_get {V} (k : string) (d : list (string * V)) : option V :=
  match d with
  | [] => None
  | (k', v) :: d' => if String.eqb k k' then Some v else dict_get k d'
  end.

(** A row of the keyword queries, as [generate_table_str] reads it. *)
Record result_row : Type := mk_result_row {
  row_Title : option string;
  row_Author : option string;
  row_Year : option string;
  row_DOI : option string
}.

(** The keyword queries with their parameter. *)
Inductive query : Type :=
| query_list_papers
| query_search_by_title (title_val : string)
| query_search_by_author (author_val : string)
| query_search_by_topic (topic_val : string).

(** A cell of a table handed to [tabulate]. *)
Inductive cell : Type :=
| CStr (s : string)
| CNone
| CNum (q : Q).

(** What is appended to the text of the output area: a string, or the
    string that [tabulate(table, headers=headers, ...)] renders, which is
    kept symbolic. *)
Inductive content : Type :=
| Str (s : string)
| Tabulate (table : list (list cell)) (headers : list string).

(** One write: the content and the [end] string that follows it. *)
Definition chunk : Type := (content * string)%type.

Definition is_table (c : chunk) : bool :=
  match c.1 with Tabulate _ _ => true | Str _ => false end.

(** A call of [visualise_output]. *)
Inductive vis_call : Type :=
| VisRows (papers : list result_row) (central_label : string)
| VisSimilarity (papers : list Analysis.row) (central_label : string).

(** A started thread running [paper_loading_thread] for [target_path]. *)
Record thread : Type := mk_thread {
  daemon : bool;
  target_path : string
}.

(** The state of the interface.  [output_area] is the list of the writes
    whose concatenation is [output_area.text]; [invoked] is a history
    variable listing the callbacks that [command_handler] has called. *)
Record cli : Type := mk_cli {
  running : bool;
  exited : bool;
  input_text : string;
  output_area : list chunk;
  render_info : option Z;
  session : graph;
  all_papers : list Paper;
  threads : list thread;
  visualised : list vis_call;
  invoked : list command
}.

Definition max_character_limit : nat := 100.

Definition with_output (o : list chunk) (st : cli) : cli :=
  mk_cli (running st) (exited st) (input_text st) o (render_info st)
         (session st) (all_papers st) (threads st) (visualised st) (invoked st).

Definition with_input (s : string) (st : cli) : cli :=
  mk_cli (running st) (exited st) s (output_area st) (render_info st)
         (session st) (all_papers st) (threads st) (visualised st) (invoked st).

Definition with_session (g : graph) (st : cli) : cli :=
  mk_cli (running st) (exited st) (input_text st) (output_area st) (render_info st)
         g (all_papers st) (threads st) (visualised st) (invoked st).

Definition with_all_papers (l : list Paper) (st : cli) : cli :=
  mk_cli (running st) (exited st) (input_text st) (output_area st) (render_info st)
         (session st) l (threads st) (visualised st) (invoked st).

Definition with_threads (l : list thread) (st : cli) : cli :=
  mk_cli (running st) (exited st) (input_text st) (output_area st) (render_info st)
         (session st) (all_papers st) l (visualised st) (invoked st).

Definition with_visualised (l : list vis_call) (st : cli) : cli :=
  mk_cli (running st) (exited st) (input_text st) (output_area st) (render_info st)
         (session st) (all_papers st) (threads st) l (invoked st).

Definition with_invoked (l : list command) (st : cli) : cli :=
  mk_cli (running st) (exited st) (input_text st) (output_area st) (render_info st)
         (session st) (all_papers st) (threads st) (visualised st) l.

Definition output_clear (st : cli) : cli := with_output [] st.

(** [output_write(text)] and [output_write(text, end)] *)
Definition output_write_end (text : content) (end_ : string) (st : cli) : cli :=
  with_output (output_area st ++ [(text, end_)]) st.

Definition output_write (text : string) (st : cli) : cli :=
  output_write_end (Str text) PyStr.nl st.

(** [output_print] appends like [output_write] and asks for a redraw, which
    changes nothing of the state. *)
Definition output_print (text : string) (st : cli) : cli :=
  output_write_end (Str text) PyStr.nl st.

(** [visualise_output(...)] *)
Definition visualise_output (v : vis_call) (st : cli) : cli :=
  with_visualised (visualised st ++ [v]) st.

(** [input_limit_length], the callback of [on_text_changed] *)
Definition input_limit_length (st : cli) : cli :=
  if (max_character_limit <? String.length (input_text st))%nat
  then with_input (PyStr.take max_character_limit (input_text st)) st
  else st.

(** The buffer text is set to [s] and [on_text_changed] fires. *)
Definition text_changed (s : string) (st : cli) : cli :=
  input_limit_length (with_input s st).

(** [v or "--"] *)
Definition or_dash (v : option string) : string :=
  match v with
  | None => "--"
  | Some s => if String.eqb s "" then "--" else s
  end.

Definition generate_table_str (rows : list result_row) (st : cli) : content :=
  let table :=
    map (fun row => [CStr (or_dash (row_Title row)); CStr (or_dash (row_Author row));
                     CStr (or_dash (row_Year row)); CStr (or_dash (row_DOI row))])
        rows in
  match render_info st with
  | Some _ => Tabulate table ["Title"; "Author(s)"; "Year"; "DOI"]
  | None => Str ""
  end.

Definition help_text : string :=
  String.concat PyStr.nl
    [ "Available commands:"; "";
      "----------------- General ------------------  ";
      " list papers                lp";
      "";
      "----- Searching by semantic similarity -----  ";
      " simsearch  <text>          ss  <text>";
      " vsimsearch <text>          vss <text>";
      "";
      "------ Searching by title/author/topic -----  ";
      " search  title  <title>     st  <title>";
      " search  author <name>      sa  <name>";
      " search  topic  <topic>     sp  <topic>";
      " vsearch <type> <text>     vsh <type> <text>";
      "";
      "----------------- Database -----------------  ";
      " add <directory_path>       a <directory_path>";
      "";
      "-------------- Miscellaneous ---------------  ";
      " help (this message)        h";
      " exit                       e";
      ""; "" ].

(** What [command_add_papers_by_users] passes to [add_paper] for a paper. *)
Definition paper_data (paper : Paper) : paper_dict :=
  {| d_path := Some (path paper);
     d_id := Some (title paper);
     d_filename := Some (filename paper);
     d_Year := Some (year paper);
     d_year := None;
     d_title := Some (title paper);
     d_text := Some (text paper);
     d_authors := Some (if String.eqb (author paper) "" then [] else [author paper]);
     d_topics := Some (topics paper);
     d_main_keyphrase := Some (main_keyphrase paper);
     d_doi := Some (doi paper) |}.

Definition similarity_table (results : list Analysis.row) : content :=
  Tabulate
    (map (fun r : Analysis.row =>
            let '(t, a, d, s) := r in
            [from_option CStr CNone t; from_option CStr CNone a;
             from_option CStr CNone d; CNum s])
         results)
    ["Title"; "Author"; "DOI"; "Similarity"].

Section interface.
(** The environment of the interface. *)
Variable fs : file_system.
Variable encode : string -> list Q.
Variable cosine_similarity : list Q -> list Q -> Q.
Variable extract_keywords : string -> list (string * Q).
(** [session.run(query, ...).data()] for the keyword queries, and
    [session.run(query_search_by_semantic)] *)
Variable run_query : graph -> query -> list result_row.
Variable run_semantic : graph -> list Analysis.record.

Definition command_exit (st : cli) : cli :=
  mk_cli false true (input_text st) (output_area st) (render_info st)
         (session st) (all_papers st) (threads st) (visualised st) (invoked st).

Definition command_help (st : cli) : cli := output_write help_text st.

Definition command_list_papers (tokens : list string) (st : cli) : cli :=
  if negb (bool_decide (tokens ∈ [["lp"]; ["list"; "papers"]])) then
    output_write ("Unknown command '" +:+ PyStr.join " " tokens +:+ "'") st
  else
    let rows := run_query (session st) query_list_papers in
    match rows with
    | [] => output_write "No papers found." st
    | _ :: _ =>
        let result := generate_table_str rows st in
        let st := output_write ("=== " +:+ pretty (length rows) +:+ " papers in the database ===") st in
        output_write_end result PyStr.nl st
    end.

Definition command_search_by_title (title_value : string) (visualsation : bool)
    (st : cli) : cli :=
  let result := run_query (session st) (query_search_by_title title_value) in
  match result with
  | [] => output_write ("No papers found with title containing '" +:+ title_value +:+ "'.") st
  | _ :: _ =>
      let st := output_write ("=== Papers with title containing '" +:+ title_value +:+ "' ===") st in
      let st := output_write_end (generate_table_str result st) PyStr.nl st in
      if visualsation then visualise_output (VisRows result title_value) st else st
  end.

Definition command_search_by_author (author_name : string) (visualsation : bool)
    (st : cli) : cli :=
  let result := run_query (session st) (query_search_by_author author_name) in
  match result with
  | [] => output_write ("No results found for author containing '" +:+ author_name +:+ "'.") st
  | _ :: _ =>
      let st := output_write ("=== Papers by author containing '" +:+ author_name +:+ "' ===") st in
      let st := output_write_end (generate_table_str result st) PyStr.nl st in
      if visualsation then visualise_output (VisRows result author_name) st else st
  end.

Definition command_search_by_topic (topic_val : string) (visualsation : bool)
    (st : cli) : cli :=
  let result := run_query (session st) (query_search_by_topic topic_val) in
  match result with
  | [] => output_write ("No papers found with topic containing '" +:+ topic_val +:+ "'.") st
  | _ :: _ =>
      let st := output_write ("=== Papers with topic containing '" +:+ topic_val +:+ "' ===") st in
      let st := output_write_end (generate_table_str result st) PyStr.nl st in
      if visualsation then visualise_output (VisRows result topic_val) st else st
  end.

(** [search_map]; the value [None] of the key [search] is [Some None]. *)
Definition search_map : list (string * option string) :=
  [ ("st", Some "title"); ("sa", Some "author"); ("sp", Some "topic");
    ("search", None);
    ("vst", Some "title"); ("vsa", Some "author"); ("vsp", Some "topic") ].

Definition command_search (tokens : list string) (st : cli) : cli :=
  match tokens with
  | [] | [_] => output_write ("Unknown command '" +:+ PyStr.join " " tokens +:+ "'") st
  | t0 :: t1 :: more =>
      (* Handle visual search flags *)
      let visualise := bool_decide (t0 ∈ ["vsearch"; "vsh"; "vst"; "vsa"; "vsp"]) in
      let cmd := PyStr.lower t0 in
      let dispatch (sub_cmd : option string) (value : string) : cli :=
        if bool_decide (sub_cmd = Some "title") then command_search_by_title value visualise st
        else if bool_decide (sub_cmd = Some "author") then command_search_by_author value visualise st
        else if bool_decide (sub_cmd = Some "topic") then command_search_by_topic value visualise st
        else output_write "Unknown search type. Must be: title, author, or topic." st in
      if bool_decide (cmd ∈ ["search"; "vsearch"; "vsh"]) then
        match more with
        | [] => output_write ("Usage: " +:+ cmd +:+ " <title|author|topic> <value>") st
        | t2 :: _ => dispatch (Some (PyStr.lower t1)) t2
        end
      else
        match dict_get cmd search_map with
        | Some sub_cmd => dispatch sub_cmd t1
        | None => output_write ("Unknown command '" +:+ cmd +:+ "'") st
        end
  end.

(** [tokens[1] if len(tokens) == 2 else tokens[1] + " " + tokens[2]] *)
Definition query_text_of (t1 : string) (more : list string) : string :=
  match more with
  | [] => t1
  | t2 :: _ => t1 +:+ " " +:+ t2
  end.

(** The call made by both semantic commands, with [top_n=15] and
    [threshold=0.2]. *)
Definition semantic_results (query_text : string) (st : cli) : list Analysis.row :=
  Analysis.find_papers_by_similarity encode cosine_similarity
    (run_semantic (session st)) query_text 15 (1 # 5).

Definition command_search_by_similarity (tokens : list string) (st : cli) : cli :=
  match tokens with
  | [] | [_] => output_write ("Unknown command '" +:+ PyStr.join " " tokens +:+ "'") st
  | _ :: t1 :: more =>
      let query_text := query_text_of t1 more in
      let results := semantic_results query_text st in
      match results with
      | [] => output_write "No papers found with embedding. Please ensure you stored them!" st
      | _ :: _ =>
          let st := output_write ("=== Semantic Search Results for '" +:+ query_text +:+ "' ===") st in
          output_write_end (similarity_table results) PyStr.nl st
      end
  end.

Definition command_search_by_vsemantic (tokens : list string) (st : cli) : cli :=
  match tokens with
  | [] | [_] => output_write ("Unknown command '" +:+ PyStr.join " " tokens +:+ "'") st
  | _ :: t1 :: more =>
      let query_text := query_text_of t1 more in
      let results := semantic_results query_text st in
      let st :=
        match results with
        | [] => output_write "No papers found with embedding. Please ensure you stored them!" st
        | _ :: _ => st
        end in
      let st := output_write ("=== Semantic Search Results for '" +:+ query_text +:+ "' ===") st in
      let st := output_write_end (similarity_table results) PyStr.nl st in
      visualise_output (VisSimilarity results query_text) st
  end.

(** The body of the thread that [command_add_papers_by_users] starts. *)
Definition paper_loading_thread (path' : string) (st : cli) : cli :=
  (* (1) Load papers from local directory *)
  let '(calls, loaded) := papers_load fs extract_keywords path' in
  let st :=
    fold_left (fun st (c : writer_call) =>
                 output_write_end (Str c.1) (default PyStr.nl c.2) st)
              calls st in
  match loaded with
  | None => st
  | Some papers =>
      let st := with_all_papers papers st in
      match papers with
      | [] => output_print "No valid PDF file was found." st
      | _ :: _ =>
          (* (2) Write data into Neo4j *)
          let st :=
            fold_left (fun st paper =>
                         let st := output_print ("Uploading file: " +:+ filename paper +:+ ".pdf") st in
                         with_session (add_paper encode (session st) (paper_data paper)) st)
                      papers st in
          output_print "Paper loading complete" st
      end
  end.

Definition command_add_papers_by_users (tokens : list string) (st : cli) : cli :=
  match tokens with
  | [] | [_] => output_print ("Unknown command '" +:+ PyStr.join " " tokens +:+ "'") st
  | _ :: path' :: _ =>
      if negb (fs_exists fs path') then
        output_print ("Error: Path-'" +:+ path' +:+ "' doesn't exist, please enter correct path!") st
      else if negb (fs_isdir fs path') then
        output_print ("Error: Path-'" +:+ path' +:+ "' doesn't a folder, please enter correct path!") st
      else
        with_threads (threads st ++ [mk_thread true path']) st
  end.

(** [func(args)] with [args = [tokens]] *)
Definition call (func : command) (tokens : list string) (st : cli) : cli :=
  match func with
  | self_command_exit => command_exit st
  | self_command_help => command_help st
  | self_command_list_papers => command_list_papers tokens st
  | self_command_search => command_search tokens st
  | self_command_search_by_similarity => command_search_by_similarity tokens st
  | self_command_search_by_vsemantic => command_search_by_vsemantic tokens st
  | self_command_add_papers_by_users => command_add_papers_by_users tokens st
  end.

(** [command_handler], the accept handler of the input field *)
Definition command_handler (st : cli) : cli :=
  let tokens := PyStr.split 2 (PyStr.strip (input_text st)) in
  match tokens with
  | [] => st
  | t0 :: _ =>
      let main_cmd := PyStr.lower t0 in
      match dict_get main_cmd commands with
      | Some func =>
          call func tokens (with_invoked (invoked st ++ [func]) (output_clear st))
      | None =>
          output_write ("Unknown command '" +:+ main_cmd +:+ "'") (output_clear st)
      end
  end.

(** The interface as a transition system: the user edits the input field,
    accepts the line, or a started thread runs. *)
Inductive step : cli -> cli -> Prop :=
| step_text_changed s st : step st (text_changed s st)
| step_accept st : step st (command_handler st)
| step_thread t st : t ∈ threads st -> step st (paper_loading_thread (target_path t) st).

End interface.

(** The state in which [run] starts the application. *)
Definition init (welcome_message : string) (driver_session : graph) : cli :=
  {| running := true; exited := false; input_text := "";
     output_area := [(Str (welcome_message +:+ PyStr.nl), "")];
     render_info := None; session := driver_session; all_papers := [];
     threads := []; visualised := []; invoked := [] |}.

(** The command words, as tests/test_command_words.py lists them. *)
Definition command_words : list string :=
  [ "exit"; "help"; "list"; "search"; "vsearch"; "simsearch"; "vsimsearch";
    "add"; "e"; "h"; "lp"; "st"; "sa"; "sp"; "ss"; "vsh"; "vss"; "a" ].


End Cli.

(** ** visualisation.py *)

Module Visualisation.

(** An entry of [papers].  [Title], [DOI] and [Author] are bound by both
    callers, with a value that may be [null]; [Similarity] is a key of the
    entries of the semantic search only ([None]: the key is absent). *)
Record paper : Type := mk_paper {
  Title : option string;
  DOI : option string;
  Author : option string;
  Similarity : option Q
}.

(** The calls made on the network [net], in order. *)
Inductive call : Type :=
| add_node (n_id : string) (label : option string) (title : string)
    (size : Z) (shape : option string) (color : string) (link : option string)
| add_edge (source to : string) (length : option Q)
| write_html (output_file : string) (open_browser : bool).

(** how an f-string shows a value that may be [None] *)
Definition shown (v : option string) : string := default "None" v.

(** The link of a node: none for a missing, empty or placeholder DOI, the
    DOI itself when it starts with http, the DOI behind the resolver
    otherwise. *)
Definition node_url (doi : option string) : option string :=
  match doi with
  | None => None
  | Some d =>
      if String.eqb d "" || String.eqb d "No DOI" then None
      else Some (if String.prefix "http" d then d else "https://doi.org/" +:+ d)
  end.

Definition edge_length (base_length scale similarity : Q) : Q :=
  (base_length + (1 - similarity) * scale)%Q.

Section visualise_output.
(** how Python formats a float with two decimals *)
Variable format_2f : Q -> string.

(** The body of the loop, for the entry [paper] at position [idx]. *)
Definition loop_body (central_label : string) (use_similarity : bool)
    (base_length scale : Q) (idx : nat) (paper : paper) : list call :=
  let title := Title paper in
  let doi := DOI paper in
  let similarity :=
    if use_similarity then Some (default (1 # 2)%Q (Similarity paper)) else None in
  let node_id := "paper_" +:+ pretty idx in
  let node_title := "Title: " +:+ shown title +:+ "<br>DOI: " +:+ shown doi in
  let node_title :=
    match similarity with
    | Some sim => node_title +:+ "<br>Similarity: " +:+ format_2f sim
    | None => node_title
    end in
  let url := node_url doi in
  let edge :=
    match similarity with
    | Some sim => Some (edge_length base_length scale sim)
    | None => None
    end in
  [ add_node node_id title node_title 20 (Some "dot") "#97C2FC" url;
    add_edge central_label node_id edge ].

(** [for idx, paper in enumerate(papers, start=idx)] *)
Fixpoint loop (central_label : string) (use_similarity : bool)
    (base_length scale : Q) (idx : nat) (papers : list paper) : list call :=
  match papers with
  | [] => []
  | paper :: papers' =>
      loop_body central_label use_similarity base_length scale idx paper
      ++ loop central_label use_similarity base_length scale (S idx) papers'
  end.

Definition visualise_output (papers : list paper) (central_label : string)
    (output_file : string) (use_similarity : bool) (base_length scale : Q)
    (open_browser : bool) : list call :=
  add_node central_label (Some central_label) "Search root" 30 None "red" None
  :: loop central_label use_similarity base_length scale 1 papers
  ++ [write_html output_file open_browser].

(** The entries that [command_search_by_vsemantic] builds of its results. *)
Definition of_similarity_row (r : Analysis.row) : paper :=
  let '(title, author, doi, sim) := r in
  mk_paper title doi author (Some sim).

(** The rows of a keyword search are passed as they are. *)
Definition of_result_row (r : Cli.result_row) : paper :=
  mk_paper (Cli.row_Title r) (Cli.row_DOI r) (Cli.row_Author r) None.

(** A call of the command line, with the defaults of the parameters that
    it does not pass. *)
Definition run (v : Cli.vis_call) : list call :=
  match v with
  | Cli.VisRows papers central_label =>
      visualise_output (map of_result_row papers) central_label
        "visualized_results.html" false 50 200 true
  | Cli.VisSimilarity papers central_label =>
      visualise_output (map of_similarity_row papers) central_label
        "visualized_results.html" true 50 200 true
  end.

End visualise_output.

(** the lengths of the edges that a run adds, in order *)
Definition edge_lengths (calls : list call) : list (option Q) :=
  omap (fun c => match c with add_edge _ _ l => Some l | _ => None end) calls.

(** the links of the paper nodes that a run adds, in order *)
Definition node_links (calls : list call) : list (option string) :=
  omap (fun c => match c with
                 | add_node _ _ _ _ (Some _) _ link => Some link
                 | _ => None
                 end) calls.

End Visualisation.

(** ** Predicates used to state properties of the loader and of the store *)

Module Stated.

Import Graph Loader.

(** What [papers_load] has made of a PDF: the fields of the paper are read
    off the document at its path, the topics are the keyphrases of its
    text. *)
Definition made_of_document (fs : file_system)
    (extract_keywords : string -> list (string * Q)) (paper : Loader.Paper) : Prop :=
  exists d,
    fs_open fs (path paper) = Some d
    /\ filename paper = basename (path paper)
    /\ title paper = default "" (metadata d !! "title")
    /\ author paper = default "" (metadata d !! "author")
    /\ subject paper = default "" (metadata d !! "subject")
    /\ text paper = String.concat "" (pages d)
    /\ topics paper = map fst (extract_keywords (text paper)).

(** The property that identifies a node of a label: the one of its
    [MERGE] pattern. *)
Definition key_of (l : label) : string :=
  match l with
  | Graph.Paper => "filename"
  | Author | Topic => "name"
  end.

(** The store has a node of label [l] identified by [v]. *)
Definition present (l : label) (v : pval) (g : graph) : bool :=
  existsb (matches l (key_of l) v) (nodes g).

(** At most one node of each label has a given identifying value. *)
Definition keyed (g : graph) : Prop :=
  forall l v, (length (List.filter (matches l (key_of l) v) (nodes g)) <= 1)%nat.

(** Every node [(l1, v1)] has a relationship of type [t] to every node
    [(l2, v2)]. *)
Definition related (t : rel_type) (l1 : label) (v1 : pval) (l2 : label) (v2 : pval)
    (g : graph) : Prop :=
  forall i j,
    i ∈ match_nodes l1 (key_of l1) v1 g -> j ∈ match_nodes l2 (key_of l2) v2 g ->
    mk_rel i t j ∈ rels g.

(** Nothing of [g] is removed or changed in [g']. *)
Definition extends (g g' : graph) : Prop :=
  nodes g `prefix_of` nodes g' /\ rels g `prefix_of` rels g'.

(** The store holds all that a call of [add_paper] with [paper] writes:
    the paper, its authors and its topics, and the relationships between
    them. *)
Definition settled (paper : paper_dict) (g : graph) : Prop :=
  let filename := VStr (default "No filename" (d_filename paper)) in
  present Graph.Paper filename g = true
  /\ (forall a, a ∈ default ["No authors"] (d_authors paper) ->
        present Author (VStr a) g = true
        /\ related WROTE Author (VStr a) Graph.Paper filename g)
  /\ (forall t, t ∈ default ["No topics"] (d_topics paper) ->
        present Topic (VStr t) g = true
        /\ related HAS_TOPIC Graph.Paper filename Topic (VStr t) g).

(** A write that only adds, and that keeps the nodes identified and what
    is present and related. *)
Definition preserving (s : graph -> graph) : Prop :=
  forall g,
    extends g (s g)
    /\ (keyed g -> keyed (s g))
    /\ (forall l v, present l v g = true -> present l v (s g) = true)
    /\ (forall t l1 v1 l2 v2,
          present l1 v1 g = true -> present l2 v2 g = true ->
          related t l1 v1 l2 v2 g -> related t l1 v1 l2 v2 (s g)).

(** The properties of [ON CREATE SET] do not touch the identifying one. *)
Definition keys_ok (l : label) (on_create : list (string * prop)) : Prop :=
  Forall (fun kv => kv.1 <> key_of l) on_create.

End Stated.

(** ** The attributes that the data model lists for a paper *)

Module DataModel.

Import Graph.

(** The attributes of the entity Paper in the data model, by the names the
    program gives them. *)
Definition paper_attributes : list string :=
  [ "path"; "filename"; "title"; "author"; "year"; "subject"; "text";
    "topics"; "main_keyphrase"; "doi"; "embedding" ].

(** Every attribute of the data model is a property of the node. *)
Definition persists_all_attributes (n : node) : bool :=
  forallb (fun a => bool_decide (is_Some (props n !! a))) paper_attributes.

End DataModel.

(** ** A small concrete environment, for examples *)

Module Sample.

Import Graph Loader.

Definition doc : document :=
  {| metadata := {[ "title" := "On graphs"; "author" := "A. Writer";
                    "subject" := "Graphs"; "creationDate" := "D:20140101120000" ]};
     pages := ["Graphs are everywhere. "; "doi: 10.1016/j.dr.2014.11.001."] |}.

(** One directory, [papers], holding a PDF and a text file. *)
Definition fs : file_system :=
  {| fs_exists := fun p => String.eqb p "papers" || String.eqb p "papers/a.pdf"
                           || String.eqb p "papers/notes.txt";
     fs_isdir := fun p => String.eqb p "papers";
     fs_listdir := fun p => if String.eqb p "papers" then Some ["a.pdf"; "notes.txt"] else None;
     fs_open := fun p => if String.eqb p "papers/a.pdf" then Some doc else None;
     fs_expanduser := fun p => p |}.

Definition extract_keywords (text : string) : list (string * Q) :=
  [("graphs are everywhere", 3 # 4); ("graphs", 1 # 2)].

Definition no_keywords (text : string) : list (string * Q) := [].

Definition encode (s : string) : list Q := [Z.of_nat (String.length s) # 1; 1 # 1].

(** stands for the cosine similarity: any function of the two vectors *)
Definition cosine_similarity (u v : list Q) : Q :=
  match v with
  | x :: _ => x
  | [] => 0
  end.

(** the paper that [papers_load] makes of [papers/a.pdf] *)
Definition paper : Paper :=
  {| path := "papers/a.pdf"; filename := "a.pdf"; year := "2014";
     title := "On graphs"; author := "A. Writer"; subject := "Graphs";
     text := "Graphs are everywhere. doi: 10.1016/j.dr.2014.11.001.";
     topics := ["graphs are everywhere"; "graphs"];
     main_keyphrase := "graphs are everywhere";
     doi := VStr "https://doi.org/10.1016/j.dr.2014.11.001" |}.

(** a scanned paper: no DOI in the text, the DOI in the title *)
Definition scanned : Paper :=
  {| path := "papers/s.pdf"; filename := "s.pdf"; year := "1999";
     title := "DOI:10.1234/abcd"; author := ""; subject := "";
     text := "Scanned pages without an identifier";
     topics := []; main_keyphrase := "No keyphrase"; doi := VList [] |}.

Definition records : list Analysis.record :=
  [ Analysis.mk_record (Some "a.pdf") (Some "A") None None (Some [1 # 2]) None;
    Analysis.mk_record (Some "b.pdf") (Some "B") None None (Some [1 # 10]) None;
    Analysis.mk_record (Some "c.pdf") (Some "C") None None (Some [9 # 10]) None;
    Analysis.mk_record (Some "d.pdf") (Some "D") None None (Some []) None;
    Analysis.mk_record (Some "e.pdf") (Some "E") None None (Some [3 # 10]) None ].

(** a store whose queries return nothing *)
Definition no_rows (g : graph) (q : Cli.query) : list Cli.result_row := [].
Definition no_records (g : graph) : list Analysis.record := [].

(** a store whose keyword queries return one row *)
Definition row : Cli.result_row :=
  Cli.mk_result_row (Some "On graphs") (Some "A. Writer") (Some "No year")
    (Some "https://doi.org/10.1016/j.dr.2014.11.001").
Definition one_row (g : graph) (q : Cli.query) : list Cli.result_row := [row].

(** a paper of the same author, stored before the directory is loaded *)
Definition earlier : Paper :=
  {| path := "old/e.pdf"; filename := "e.pdf"; year := "2012";
     title := "Earlier work"; author := "A. Writer"; subject := "";
     text := "Graphs."; topics := ["graphs"]; main_keyphrase := "graphs";
     doi := VStr "NO PROVIDED DOI" |}.
Definition stored : graph := add_paper encode Graph.empty (Cli.paper_data earlier).

Definition welcome : string := "Enter the 'help' command to view the main help menu.".

(** the interface at start, with a line typed into the input field *)
Definition typed (line : string) : Cli.cli :=
  Cli.with_input line (Cli.init welcome Graph.empty).

(** a line of 120 characters *)
Definition long_line : string := String.concat "" (repeat "0123456789" 12).

End Sample.

(** ** A directory with a file that does not open *)

Module Damaged.

Import Graph Loader.

(** The directory [papers] holds [a.pdf], which opens, and [b.pdf], which
    does not. *)
Definition fs : file_system :=
  {| fs_exists := fun p => String.eqb p "papers";
     fs_isdir := fun p => String.eqb p "papers";
     fs_listdir := fun p => if String.eqb p "papers" then Some ["a.pdf"; "b.pdf"] else None;
     fs_open := fun p => if String.eqb p "papers/a.pdf" then Some Sample.doc else None;
     fs_expanduser := fun p => p |}.

End Damaged.

(** * Properties *)

(** ** Ranking by similarity *)

Section ranking.
Context {A : Type} (key : A -> Q).

Lemma insert_desc_perm (x : A) (l : list A) :
  PyList.insert_desc key x l ≡ₚ x :: l.
Proof.
  induction l as [|y l IH]; simpl; [done|].
  destruct (Qle_bool (key y) (key x)); [done|].
  rewrite IH. apply Permutation_swap.
Qed.

Lemma sorted_reverse_perm (l : list A) : PyList.sorted_reverse key l ≡ₚ l.
Proof.
  induction l as [|x l IH]; simpl; [done|].
  rewrite insert_desc_perm. by rewrite IH.
Qed.

Lemma insert_desc_sorted (x : A) (l : list A) :
  StronglySorted (PyList.desc key) l ->
  StronglySorted (PyList.desc key) (PyList.insert_desc key x l).
Proof.
  induction 1 as [|y l Hl IH Hy]; simpl.
  - repeat constructor.
  - destruct (Qle_bool (key y) (key x)) eqn:E.
    + apply Qle_bool_iff in E.
      constructor; [by constructor|].
      constructor; [exact E|].
      eapply Forall_impl; [exact Hy|].
      intros z Hz. unfold PyList.desc in *. by eapply Qle_trans.
    + constructor; [exact IH|].
      rewrite insert_desc_perm. constructor; [|exact Hy].
      unfold PyList.desc.
      destruct (Qlt_le_dec (key y) (key x)) as [Hlt|Hle]; [|exact Hle].
      exfalso. apply Qlt_le_weak, Qle_bool_iff in Hlt. congruence.
Qed.

Lemma sorted_reverse_sorted (l : list A) :
  StronglySorted (PyList.desc key) (PyList.sorted_reverse key l).
Proof.
  induction l as [|x l IH]; simpl; [constructor|].
  by apply insert_desc_sorted.
Qed.

(** The sort is stable: elements with [Qeq] keys keep their order.  Stated
    on the elements of any one key class selected by a predicate that is
    closed under equal keys. *)
Lemma insert_desc_filter (p : A -> bool) (x : A) (l : list A) :
  (forall y, y ∈ l -> p y = true -> p x = true -> (key y == key x)%Q) ->
  List.filter p (PyList.insert_desc key x l) = List.filter p (x :: l).
Proof.
  induction l as [|y l IH]; intros Hp; simpl; [done|].
  destruct (Qle_bool (key y) (key x)) eqn:E; [done|].
  simpl. destruct (p y) eqn:Py.
  - destruct (p x) eqn:Px.
    + exfalso.
      assert (key y == key x)%Q as Heq by (apply Hp; [left|done|done]).
      assert (Qle_bool (key y) (key x) = true) as E'
        by (apply Qle_bool_iff; rewrite Heq; apply Qle_refl).
      congruence.
    + f_equal. simpl in IH. rewrite Px in IH. apply IH.
      intros z Hz Pz Px'. congruence.
  - simpl in IH. rewrite IH; [done|].
    intros z Hz. apply Hp. by right.
Qed.

(** The elements of one class of equal keys come out in the order in
    which they went in. *)
Lemma sorted_reverse_stable (p : A -> bool) (l : list A) :
  (forall x y, p x = true -> p y = true -> (key x == key y)%Q) ->
  List.filter p (PyList.sorted_reverse key l) = List.filter p l.
Proof.
  intros Hp. induction l as [|x l IH]; [done|].
  cbn [PyList.sorted_reverse foldr]. rewrite insert_desc_filter.
  - cbn [List.filter]. fold (PyList.sorted_reverse key l). by rewrite IH.
  - intros y _ Py Px. by apply Hp.
Qed.

End ranking.

Lemma slice_to_nonneg {A} (n : Z) (l : list A) :
  0 <= n -> PyList.slice_to n l = take (Z.to_nat n) l.
Proof. intros H. unfold PyList.slice_to. by rewrite (proj2 (Z.leb_le 0 n) H). Qed.

Section similarity_search.
Variable encode : string -> list Q.
Variable cosine_similarity : list Q -> list Q -> Q.

(** One round of the loop appends the row of the record when it qualifies. *)
Lemma loop_body_qualifies (query_text : string) (threshold : Q)
    (papers : list Analysis.row) (r : Analysis.record) :
  Analysis.loop_body cosine_similarity (encode query_text) threshold papers r
  = papers ++ (if Analysis.qualifies encode cosine_similarity query_text threshold r
               then [Analysis.to_row encode cosine_similarity query_text r]
               else []).
Proof.
  unfold Analysis.loop_body, Analysis.qualifies, Analysis.to_row,
    Analysis.record_similarity.
  destruct (Analysis.Embedding r) as [[|x e]|]; simpl;
    rewrite ?app_nil_r; try reflexivity.
  destruct (Qle_bool threshold _); simpl; rewrite ?app_nil_r; reflexivity.
Qed.

(** The loop collects, in the order of the result set, the rows of the
    records that qualify. *)
Lemma loop_collects (query_text : string) (threshold : Q)
    (result : list Analysis.record) (papers : list Analysis.row) :
  fold_left (Analysis.loop_body cosine_similarity (encode query_text) threshold)
            result papers
  = papers ++ map (Analysis.to_row encode cosine_similarity query_text)
                  (List.filter (Analysis.qualifies encode cosine_similarity query_text threshold) result).
Proof.
  revert papers. induction result as [|r result IH]; intros papers.
  - simpl. by rewrite app_nil_r.
  - cbn [fold_left List.filter]. rewrite IH, loop_body_qualifies.
    destruct (Analysis.qualifies _ _ _ _ r); cbn [map].
    + by rewrite <- app_assoc.
    + by rewrite app_nil_r.
Qed.

Lemma qualifies_similarity (query_text : string) (threshold : Q) (r : Analysis.record) :
  Analysis.qualifies encode cosine_similarity query_text threshold r = true ->
  (threshold <= Analysis.similarity (Analysis.to_row encode cosine_similarity query_text r))%Q.
Proof.
  unfold Analysis.qualifies, Analysis.to_row, Analysis.similarity.
  destruct (Analysis.record_similarity _ _ _ r); simpl; [|done].
  apply Qle_bool_iff.
Qed.

(** C1. For every query text, result set, threshold [t] and limit [N >= 0],
    [find_papers_by_similarity] returns the first [N] entries of a list
    [ranked] that is a rearrangement of the rows of exactly the records whose
    cosine similarity with the query embedding is at least [t], and that is
    sorted in descending order of similarity; hence every returned row has a
    similarity of at least [t], at most [N] rows are returned, and no row
    that was cut off is more similar than a returned one. *)
Theorem find_papers_by_similarity_ranked
    (result : list Analysis.record) (query_text : string)
    (top_n : Z) (threshold : Q) :
  0 <= top_n ->
  let out := Analysis.find_papers_by_similarity encode cosine_similarity result query_text top_n threshold in
  exists ranked : list Analysis.row,
    ranked ≡ₚ map (Analysis.to_row encode cosine_similarity query_text)
                  (List.filter (Analysis.qualifies encode cosine_similarity query_text threshold) result)
    /\ StronglySorted (PyList.desc Analysis.similarity) ranked
    /\ out = take (Z.to_nat top_n) ranked
    /\ Z.of_nat (length out) <= top_n
    /\ Forall (fun r => (threshold <= Analysis.similarity r)%Q) out
    /\ (forall r r', r ∈ out -> r' ∈ drop (Z.to_nat top_n) ranked ->
          (Analysis.similarity r' <= Analysis.similarity r)%Q).
Proof.
  intros Hn out.
  set (rows := map (Analysis.to_row encode cosine_similarity query_text)
                   (List.filter (Analysis.qualifies encode cosine_similarity query_text threshold) result)).
  assert (Hout : out = take (Z.to_nat top_n)
                         (PyList.sorted_reverse Analysis.similarity rows)).
  { unfold out, Analysis.find_papers_by_similarity.
    rewrite loop_collects, slice_to_nonneg by done. done. }
  exists (PyList.sorted_reverse Analysis.similarity rows).
  pose proof (sorted_reverse_perm Analysis.similarity rows) as Hperm.
  pose proof (sorted_reverse_sorted Analysis.similarity rows) as Hsorted.
  split; [exact Hperm|]. split; [exact Hsorted|]. split; [exact Hout|].
  split; [|split].
  - rewrite Hout, length_take. lia.
  - rewrite Hout. apply Forall_take. rewrite Hperm. unfold rows.
    apply Forall_forall. intros r Hr.
    apply list_elem_of_In, in_map_iff in Hr. destruct Hr as (rec & <- & Hrec).
    apply filter_In in Hrec. destruct Hrec as [_ Hq].
    by apply qualifies_similarity.
  - intros r r' Hr Hr'. rewrite Hout in Hr.
    rewrite <- (take_drop (Z.to_nat top_n)) in Hsorted.
    apply StronglySorted_app in Hsorted. destruct Hsorted as (H & _ & _).
    exact (H r r' Hr Hr').
Qed.

End similarity_search.

(** ** The writes of [add_paper] *)

Section graph_writes.
Import Graph.

Lemma grows_refl (g : graph) : grows_without_papers g g.
Proof. exists []. by rewrite app_nil_r. Qed.

Lemma grows_trans (g1 g2 g3 : graph) :
  grows_without_papers g1 g2 -> grows_without_papers g2 g3 ->
  grows_without_papers g1 g3.
Proof.
  intros (e1 & H1 & F1) (e2 & H2 & F2). exists (e1 ++ e2).
  rewrite H2, H1, app_assoc. split; [done|]. by apply Forall_app.
Qed.

Lemma merge_node_grows (l : label) (k : string) (v : pval)
    (on_create : list (string * prop)) (g : graph) :
  l <> Paper -> grows_without_papers g (merge_node l k v on_create g).
Proof.
  intros Hl. unfold merge_node. destruct (existsb _ _); [apply grows_refl|].
  eexists. split; [reflexivity|]. by repeat constructor.
Qed.

Lemma merge_rel_nodes (t : rel_type) (g : graph) (ends : nat * nat) :
  nodes (merge_rel t g ends) = nodes g.
Proof. unfold merge_rel. by case_bool_decide. Qed.

Lemma fold_merge_rel_nodes (t : rel_type) (pairs : list (nat * nat)) (g : graph) :
  nodes (fold_left (merge_rel t) pairs g) = nodes g.
Proof.
  revert g. induction pairs as [|e pairs IH]; intros g; simpl; [done|].
  by rewrite IH, merge_rel_nodes.
Qed.

Lemma merge_wrote_nodes (filename : pval) (name : string) (g : graph) :
  nodes (merge_wrote filename name g) = nodes g.
Proof. apply fold_merge_rel_nodes. Qed.

Lemma merge_has_topic_nodes (filename : pval) (name : string) (g : graph) :
  nodes (merge_has_topic filename name g) = nodes g.
Proof. apply fold_merge_rel_nodes. Qed.

Lemma fold_grows {X} (f : graph -> X -> graph) (xs : list X) (g : graph) :
  (forall g x, grows_without_papers g (f g x)) ->
  grows_without_papers g (fold_left f xs g).
Proof.
  intros Hf. revert g. induction xs as [|x xs IH]; intros g; simpl.
  - apply grows_refl.
  - eapply grows_trans; [apply Hf|apply IH].
Qed.

Lemma author_step_grows (filename : pval) (g : graph) (author : string) :
  grows_without_papers g
    (merge_wrote filename author (merge_node Author "name" (VStr author) [] g)).
Proof.
  destruct (merge_node_grows Author "name" (VStr author) [] g) as (e & H & F); [done|].
  exists e. by rewrite merge_wrote_nodes.
Qed.

Lemma topic_step_grows (filename : pval) (g : graph) (topic : string) :
  grows_without_papers g
    (merge_has_topic filename topic (merge_node Topic "name" (VStr topic) [] g)).
Proof.
  destruct (merge_node_grows Topic "name" (VStr topic) [] g) as (e & H & F); [done|].
  exists e. by rewrite merge_has_topic_nodes.
Qed.

Lemma paper_nodes_grows (filename : string) (g g' : graph) :
  grows_without_papers g g' -> paper_nodes filename g' = paper_nodes filename g.
Proof.
  intros (e & H & F). unfold paper_nodes. rewrite H, List.filter_app.
  replace (List.filter _ e) with (@nil node); [by rewrite app_nil_r|].
  symmetry. clear H. induction F as [|n e Hn F IH]; simpl; [done|].
  unfold matches at 1. rewrite bool_decide_eq_false_2 by done. exact IH.
Qed.

Lemma existsb_filter_nil {X} (p : X -> bool) (l : list X) :
  existsb p l = false <-> List.filter p l = [].
Proof.
  induction l as [|x l IH]; simpl; [done|].
  destruct (p x); simpl; [split; discriminate|exact IH].
Qed.

Lemma created_matches (filename title year : string) (embedding : list Q) (doi : pval) :
  matches Paper "filename" (VStr filename)
    (mk_node Paper (created_props filename title year embedding doi)) = true.
Proof.
  unfold matches, created_props. simpl.
  rewrite !lookup_insert_ne by done. rewrite lookup_singleton_eq.
  by rewrite !bool_decide_eq_true_2.
Qed.

(** The [MERGE] of the [Paper] node, seen on the nodes with that file name. *)
Lemma merge_paper_nodes (filename title year : string) (embedding : list Q)
    (doi : pval) (g : graph) :
  let g' := merge_node Paper "filename" (VStr filename)
              [("title", PVal (VStr title)); ("year", PVal (VStr year));
               ("embedding", PVec embedding); ("doi", PVal doi)] g in
  paper_nodes filename g' =
    match paper_nodes filename g with
    | [] => [mk_node Paper (created_props filename title year embedding doi)]
    | existing => existing
    end
  /\ nodes g `prefix_of` nodes g'.
Proof.
  simpl. unfold merge_node.
  destruct (existsb _ (nodes g)) eqn:E.
  - split; [|done]. unfold paper_nodes.
    destruct (List.filter _ (nodes g)) eqn:F; [|done].
    apply existsb_filter_nil in F. congruence.
  - split; [|by eexists]. apply existsb_filter_nil in E.
    unfold paper_nodes in *. simpl. rewrite List.filter_app, E. simpl.
    fold (created_props filename title year embedding doi).
    by rewrite created_matches.
Qed.

Lemma grows_elem_of (g g' : graph) (n : node) :
  grows_without_papers g g' -> n ∈ nodes g -> n ∈ nodes g'.
Proof. intros (e & -> & _) Hn. apply elem_of_app. by left. Qed.

Lemma merge_node_has (l : label) (k : string) (v : pval) (g : graph) :
  exists n, n ∈ nodes (merge_node l k v [] g) /\ matches l k v n = true.
Proof.
  unfold merge_node. destruct (existsb _ _) eqn:E.
  - apply existsb_exists in E. destruct E as (n & Hn & Hm).
    exists n. split; [by apply list_elem_of_In|done].
  - eexists. split; [apply elem_of_app; right; apply list_elem_of_singleton; reflexivity|].
    unfold matches. simpl. rewrite lookup_singleton_eq.
    by rewrite !bool_decide_eq_true_2.
Qed.

(** After a loop of [MERGE]s over names, each name has its node. *)
Lemma fold_step_has (l : label) (step : graph -> string -> graph)
    (xs : list string) (g : graph) :
  (forall g x, grows_without_papers g (step g x)) ->
  (forall g x, exists n, n ∈ nodes (step g x) /\ matches l "name" (VStr x) n = true) ->
  forall x, x ∈ xs ->
    exists n, n ∈ nodes (fold_left step xs g) /\ matches l "name" (VStr x) n = true.
Proof.
  intros Hgrow Hhas. revert g.
  induction xs as [|y xs IH]; intros g x Hx; [by apply elem_of_nil in Hx|].
  simpl. apply elem_of_cons in Hx. destruct Hx as [->|Hx]; [|by apply IH].
  destruct (Hhas g y) as (n & Hn & Hm). exists n. split; [|done].
  eapply grows_elem_of; [|exact Hn]. by apply fold_grows.
Qed.

Section add_paper_props.
Variable encode : string -> list Q.

(** The [Author] and [Topic] nodes of the names that a call lists are in
    the store after the call. *)
Lemma add_paper_names (g : graph) (paper : paper_dict) :
  let g' := add_paper encode g paper in
  (forall a, a ∈ default ["No authors"] (d_authors paper) ->
     exists n, n ∈ nodes g' /\ matches Author "name" (VStr a) n = true)
  /\ (forall t, t ∈ default ["No topics"] (d_topics paper) ->
     exists n, n ∈ nodes g' /\ matches Topic "name" (VStr t) n = true).
Proof.
  intros g'. subst g'. unfold add_paper.
  set (filename := default "No filename" (d_filename paper)).
  set (g1 := merge_node Paper _ _ _ g).
  set (astep := fun (g : graph) (author : string) =>
                  merge_wrote (VStr filename) author
                    (merge_node Author "name" (VStr author) [] g)).
  set (tstep := fun (g : graph) (topic : string) =>
                  merge_has_topic (VStr filename) topic
                    (merge_node Topic "name" (VStr topic) [] g)).
  split.
  - intros a Ha.
    assert (exists n, n ∈ nodes (fold_left astep (default ["No authors"] (d_authors paper)) g1)
                      /\ matches Author "name" (VStr a) n = true) as (n & Hn & Hm).
    { apply (fold_step_has Author astep); [intros; apply author_step_grows| |exact Ha].
      intros g0 x. unfold astep. rewrite merge_wrote_nodes. apply merge_node_has. }
    exists n. split; [|done]. eapply grows_elem_of; [|exact Hn].
    apply fold_grows. intros. apply topic_step_grows.
  - intros t Ht.
    apply (fold_step_has Topic tstep); [intros; apply topic_step_grows| |exact Ht].
    intros g0 x. unfold tstep. rewrite merge_has_topic_nodes. apply merge_node_has.
Qed.

(** [add_paper] on the [Paper] nodes of one file name: the node that the
    first statement creates or finds; the later statements add no [Paper]
    node and change no node. *)
Lemma add_paper_paper_nodes (g : graph) (paper : paper_dict) :
  let filename := default "No filename" (d_filename paper) in
  paper_nodes filename (add_paper encode g paper) =
    match paper_nodes filename g with
    | [] => [mk_node Paper
               (created_props filename
                  (default "No title" (d_title paper))
                  (default "No year" (d_year paper))
                  (encode (default "No keyphrase" (d_main_keyphrase paper)))
                  (default (VStr "NO DOI") (d_doi paper)))]
    | existing => existing
    end
  /\ nodes g `prefix_of` nodes (add_paper encode g paper).
Proof.
  intros filename. unfold add_paper. fold filename.
  set (g1 := merge_node Paper _ _ _ g).
  set (g2 := fold_left _ _ g1).
  set (g3 := fold_left _ _ g2).
  assert (grows_without_papers g1 g3) as Hg.
  { apply (grows_trans g1 g2 g3); subst g2 g3; apply fold_grows; intros;
      [apply author_step_grows|apply topic_step_grows]. }
  destruct (merge_paper_nodes filename
              (default "No title" (d_title paper))
              (default "No year" (d_year paper))
              (encode (default "No keyphrase" (d_main_keyphrase paper)))
              (default (VStr "NO DOI") (d_doi paper)) g) as [H1 H2].
  split.
  - rewrite (paper_nodes_grows filename g1 g3 Hg). exact H1.
  - destruct Hg as (e & He & _). rewrite He.
    destruct H2 as [k Hk]. fold g1 in Hk. rewrite Hk, <- app_assoc. by eexists.
Qed.

(** C2. Paper nodes are keyed by file name.  For every call of [add_paper]:
    every node of the store is still in the store, at its position and with
    all its properties (so an existing [Paper] node of the given file name
    keeps its title, year, embedding and doi); when the store has [Paper]
    nodes of that file name they are, afterwards, the same nodes and no other;
    when it has none, exactly one is created, with the file name, the title,
    the year, the embedding and the doi of the call. *)
Theorem add_paper_create_if_absent (g : graph) (paper : paper_dict) :
  let filename := default "No filename" (d_filename paper) in
  let g' := add_paper encode g paper in
  (forall i n, nodes g !! i = Some n -> nodes g' !! i = Some n)
  /\ paper_nodes filename g' =
       match paper_nodes filename g with
       | [] => [mk_node Paper
                  (created_props filename
                     (default "No title" (d_title paper))
                     (default "No year" (d_year paper))
                     (encode (default "No keyphrase" (d_main_keyphrase paper)))
                     (default (VStr "NO DOI") (d_doi paper)))]
       | existing => existing
       end.
Proof.
  intros filename g'.
  destruct (add_paper_paper_nodes g paper) as [H1 [k Hk]].
  split; [|exact H1].
  intros i n Hi. subst g'. rewrite Hk. by apply lookup_app_l_Some.
Qed.

(** A second call with the same file name writes nothing to the [Paper]
    nodes, whatever the other fields of the call are. *)
Corollary add_paper_no_update (g : graph) (paper paper' : paper_dict) :
  d_filename paper' = d_filename paper ->
  let filename := default "No filename" (d_filename paper) in
  paper_nodes filename (add_paper encode (add_paper encode g paper) paper')
  = paper_nodes filename (add_paper encode g paper).
Proof.
  intros Hf filename.
  destruct (add_paper_paper_nodes (add_paper encode g paper) paper') as [H _].
  rewrite Hf in H. fold filename in H. rewrite H.
  destruct (add_paper_paper_nodes g paper) as [H' _].
  fold filename in H'. rewrite H'.
  by destruct (paper_nodes filename g).
Qed.

End add_paper_props.
End graph_writes.

(** ** Ingestion: from the directory to the store *)

Section ingestion.
Import Graph Loader.
Variable fs : file_system.
Variable extract_keywords : string -> list (string * Q).
Variable encode : string -> list Q.

Lemma load_fresh (file_path : string) (paper : Paper) (b : bool) :
  load fs Paper_init file_path = Some (paper, b) ->
  main_keyphrase paper = "No keyphrase" /\ topics paper = [] /\ b = true.
Proof.
  unfold load. destruct (fs_open fs file_path); [|done].
  intros [= <- <-]. done.
Qed.

Lemma extract_topics_keyphrase (extracted : list (string * Q)) (paper : Paper) :
  main_keyphrase paper = "No keyphrase" ->
  main_keyphrase (extract_topics extracted paper) = primary_keyphrase extracted
  /\ text (extract_topics extracted paper) = text paper.
Proof.
  intros H. destruct extracted as [|[k q] ex]; simpl; [by rewrite H|done].
Qed.

(** Every paper that [papers_load] returns has, as its main keyphrase, the
    primary keyphrase of its text. *)
Lemma load_files_keyphrase (path' : string) (files : list string)
    (out out' : list writer_call) (items items' : list Paper) :
  Forall (fun p => main_keyphrase p = primary_keyphrase (extract_keywords (text p))) items ->
  load_files fs extract_keywords path' files out items = (out', Some items') ->
  Forall (fun p => main_keyphrase p = primary_keyphrase (extract_keywords (text p))) items'.
Proof.
  revert out items. induction files as [|f files IH]; intros out items Hitems; simpl.
  - by intros [= _ <-].
  - destruct (negb _); [by apply IH|].
    destruct (load fs Paper_init _) as [[paper b]|] eqn:Hload; [|done].
    destruct (load_fresh _ _ _ Hload) as (Hk & _ & ->).
    apply IH. apply Forall_app. split; [done|]. constructor; [|done].
    destruct (extract_topics_keyphrase (extract_keywords (text (extract_doi paper)))
                (extract_doi paper) Hk) as [H1 H2].
    change (text (extract_doi paper)) with (text paper) in H1, H2.
    by rewrite H1, H2.
Qed.

(** A path that does not exist is loaded as no paper, with no output. *)
Lemma papers_load_missing_path (path' : string) :
  fs_exists fs (fs_expanduser fs path') = false ->
  papers_load fs extract_keywords path' = ([], Some []).
Proof. intros H. unfold papers_load. by rewrite H. Qed.

Lemma papers_load_keyphrase (path' : string) (out : list writer_call)
    (items : list Paper) :
  papers_load fs extract_keywords path' = (out, Some items) ->
  Forall (fun p => main_keyphrase p = primary_keyphrase (extract_keywords (text p))) items.
Proof.
  unfold papers_load. destruct (negb _).
  - by intros [= _ <-].
  - destruct (fs_listdir _ _); [|done]. by apply load_files_keyphrase.
Qed.

(** The [Paper] node that the ingestion of a paper creates in a store that
    has none of its file name. *)
Lemma ingest_creates (g : graph) (paper : Paper) :
  paper_nodes (filename paper) g = [] ->
  paper_nodes (filename paper) (add_paper encode g (Cli.paper_data paper))
  = [mk_node Graph.Paper
       (created_props (filename paper) (title paper) "No year"
          (encode (main_keyphrase paper)) (doi paper))].
Proof.
  intros Hg.
  destruct (add_paper_paper_nodes encode g (Cli.paper_data paper)) as [H _].
  simpl in H. by rewrite Hg in H.
Qed.

(** C9. For every paper that [papers_load] returns and that is ingested
    into a store with no [Paper] node of its file name, the embedding of the
    created node is the encoding of the primary keyphrase of the paper, the
    first keyphrase that the extractor returns for its text, and of nothing
    else; when the extractor returns no keyphrase it is the encoding of the
    string [No keyphrase]. *)
Theorem persisted_embedding_encodes_keyphrase (path' : string)
    (out : list writer_call) (items : list Paper) (paper : Paper) (g : graph) :
  papers_load fs extract_keywords path' = (out, Some items) ->
  paper ∈ items ->
  paper_nodes (filename paper) g = [] ->
  exists n,
    paper_nodes (filename paper) (add_paper encode g (Cli.paper_data paper)) = [n]
    /\ props n !! "embedding"
       = Some (PVec (encode (primary_keyphrase (extract_keywords (text paper)))))
    /\ (extract_keywords (text paper) = [] ->
        props n !! "embedding" = Some (PVec (encode "No keyphrase"))).
Proof.
  intros Hload Hin Hg.
  pose proof (papers_load_keyphrase _ _ _ Hload) as Hall.
  rewrite Forall_forall in Hall. specialize (Hall paper Hin).
  eexists. split; [by apply ingest_creates|].
  simpl. unfold created_props.
  rewrite lookup_insert_ne by done. rewrite lookup_insert_eq.
  rewrite Hall. split; [done|]. by intros ->.
Qed.

Lemma created_props_dom (filename title year : string) (embedding : list Q)
    (doi : pval) :
  dom (created_props filename title year embedding doi)
  = ({[ "filename"; "title"; "year"; "embedding"; "doi" ]} : gset string).
Proof.
  unfold created_props. rewrite !dom_insert_L, dom_singleton_L. set_solver.
Qed.

(** C3, amended. Every paper of the ingestion carries a path, a file name,
    a title, an author, a year, a subject, a full text, a topic list, a
    primary keyphrase and a DOI (the fields of [Paper]).  When it is
    ingested into a store with no [Paper] node of its file name, the node
    that is created has exactly the properties [filename], [title], [year],
    [embedding] and [doi]: the file name, the title and the DOI are those of
    the paper and the embedding is the encoding of its primary keyphrase.
    The node has no property for the author, the topic list or the primary
    keyphrase: the author, when not empty, and each topic of the topic list
    are in the store as [Author] and [Topic] nodes of that name, and the
    primary keyphrase is in the store through the embedding and, where it is
    one of the topics, as that [Topic] node.  The path, the subject and the
    full text are not persisted: the store after the ingestion is the same
    whatever they are. *)
Theorem ingested_paper_node (paper : Paper) (g : graph) :
  paper_nodes (filename paper) g = [] ->
  let g' := add_paper encode g (Cli.paper_data paper) in
  (exists n,
     paper_nodes (filename paper) g' = [n]
     /\ dom (props n) = ({[ "filename"; "title"; "year"; "embedding"; "doi" ]} : gset string)
     /\ props n !! "filename" = Some (PVal (VStr (filename paper)))
     /\ props n !! "title" = Some (PVal (VStr (title paper)))
     /\ props n !! "doi" = Some (PVal (doi paper))
     /\ props n !! "embedding" = Some (PVec (encode (main_keyphrase paper))))
  /\ (author paper <> "" ->
      exists a, a ∈ nodes g' /\ matches Author "name" (VStr (author paper)) a = true)
  /\ (forall t, t ∈ topics paper ->
      exists n', n' ∈ nodes g' /\ matches Topic "name" (VStr t) n' = true)
  /\ (forall path' subject' text' : string,
      add_paper encode g
        (Cli.paper_data
           {| path := path'; filename := filename paper; year := year paper;
              title := title paper; author := author paper; subject := subject';
              text := text'; topics := topics paper;
              main_keyphrase := main_keyphrase paper; doi := doi paper |})
      = g').
Proof.
  intros Hg g'. split.
  { eexists. split; [by apply ingest_creates|].
    split; [apply created_props_dom|].
    cbn [props]. unfold created_props.
    split; [by simplify_map_eq|]. split; [by simplify_map_eq|].
    split; by simplify_map_eq. }
  split.
  { intros Ha.
    destruct (add_paper_names encode g (Cli.paper_data paper)) as [H _].
    apply H. simpl. destruct (String.eqb_spec (author paper) ""); [done|].
    apply list_elem_of_singleton. reflexivity. }
  split.
  { intros t Ht.
    destruct (add_paper_names encode g (Cli.paper_data paper)) as [_ H].
    apply H. exact Ht. }
  intros path' subject' text'. reflexivity.
Qed.

End ingestion.

(** C3 as stated does not hold: the node created for the paper of the sample
    directory has no property for the path, the author, the subject, the
    full text, the topic list or the primary keyphrase of the paper. *)
Lemma ingested_node_lacks_attributes :
  exists out n,
    Loader.papers_load Sample.fs Sample.extract_keywords "papers"
      = (out, Some [Sample.paper])
    /\ Graph.paper_nodes "a.pdf"
         (Graph.add_paper Sample.encode Graph.empty (Cli.paper_data Sample.paper)) = [n]
    /\ DataModel.persists_all_attributes n = false
    /\ Graph.props n !! "path" = None
    /\ Graph.props n !! "author" = None
    /\ Graph.props n !! "subject" = None
    /\ Graph.props n !! "text" = None
    /\ Graph.props n !! "topics" = None
    /\ Graph.props n !! "main_keyphrase" = None.
Proof.
  do 2 eexists. split; [vm_compute; reflexivity|].
  split; [exact (ingest_creates Sample.encode Graph.empty Sample.paper eq_refl)|].
  repeat split; vm_compute; reflexivity.
Qed.

(** ** The matcher: continuations that cannot fail *)

Section regex_facts.
Import Regex.

Lemma rep_ext {A} (p : ascii -> bool) (lo : nat) (hi : option nat) (s : string)
    (k k' : string -> option A) :
  (forall t, k t = k' t) -> rep p lo hi s k = rep p lo hi s k'.
Proof.
  intros Hk. revert lo hi. induction s as [|c s IH]; intros lo hi; simpl.
  - by rewrite Hk.
  - rewrite (IH (Nat.pred lo) (Nat.pred <$> hi)). by rewrite Hk.
Qed.

Lemma run_ext {A} (r : re) :
  forall (s : string) (g : option string) (k k' : string -> option string -> option A),
    (forall t h, k t h = k' t h) -> run r s g k = run r s g k'.
Proof.
  induction r as [|p|p lo hi|r1 IH1 r2 IH2|r IH|r IH]; intros s g k k' Hk; simpl.
  - apply Hk.
  - destruct s as [|c s]; [done|]. destruct (p c); [apply Hk|done].
  - apply rep_ext. intros t. apply Hk.
  - apply IH1. intros t h. by apply IH2.
  - rewrite (IH s g k k' Hk). by rewrite Hk.
  - apply IH. intros t h. apply Hk.
Qed.

(** The captured group only flows through the matcher: a continuation that
    does not look at it gets the same result from any initial value. *)
Lemma run_group_irrelevant {A} (r : re) :
  forall (s : string) (g g' : option string) (k : string -> option string -> option A),
    (forall t h h', k t h = k t h') -> run r s g k = run r s g' k.
Proof.
  induction r as [|p|p lo hi|r1 IH1 r2 IH2|r IH|r IH]; intros s g g' k Hk; simpl.
  - apply Hk.
  - destruct s as [|c s]; [done|]. destruct (p c); [apply Hk|done].
  - apply rep_ext. intros t. apply Hk.
  - apply IH1. intros t h h'. by apply IH2.
  - rewrite (IH s g g' k Hk). by rewrite (Hk s g g').
  - apply IH. intros t h h'. reflexivity.
Qed.

Lemma rep_total {A B} (p : ascii -> bool) (lo : nat) (hi : option nat)
    (s : string) (f : string -> option A) (k : A -> B) :
  rep p lo hi s (fun t => then_ k (f t)) = then_ k (rep p lo hi s f).
Proof.
  revert lo hi. induction s as [|c s IH]; intros lo hi; simpl.
  - by destruct (lo =? 0)%nat.
  - destruct (p c && more hi).
    + rewrite IH. destruct (rep p _ _ s f); simpl; [done|].
      by destruct (lo =? 0)%nat.
    + by destruct (lo =? 0)%nat.
Qed.

(** A step that cannot fail is never backtracked into: doing it inside the
    continuation or after the match is the same. *)
Lemma run_total {A B} (r : re) :
  forall (s : string) (g : option string)
         (f : string -> option string -> option A) (k : A -> B),
    run r s g (fun t h => then_ k (f t h)) = then_ k (run r s g f).
Proof.
  induction r as [|p|p lo hi|r1 IH1 r2 IH2|r IH|r IH]; intros s g f k; simpl.
  - done.
  - destruct s as [|c s]; [done|]. by destruct (p c).
  - apply (rep_total p lo hi s (fun t => f t g) k).
  - rewrite <- IH1. apply run_ext. intros t h. apply IH2.
  - rewrite IH. by destruct (run r s g f).
  - apply (IH s g (fun t _ => f t (Some (consumed s t))) k).
Qed.

End regex_facts.

(** ** DOI extraction *)

Section doi.
Import Regex Loader.

Lemma core_needs_one (c : ascii) (s : string) {A} (g : option string)
    (k : string -> option string -> option A) :
  is_one c = false -> run doi_core (String c s) g k = None.
Proof. intros H. unfold doi_core. simpl. unfold is_one in H. by rewrite H. Qed.

Lemma core_empty {A} (g : option string) (k : string -> option string -> option A) :
  run doi_core "" g k = None.
Proof. reflexivity. Qed.

Lemma space_not_one (c : ascii) : PyStr.is_space c = true -> is_one c = false.
Proof.
  destruct c as [[] [] [] [] [] [] [] []]; vm_compute; congruence.
Qed.

Lemma ci_not_one (c d : ascii) :
  Ascii.eqb (PyStr.lower_char d) (PyStr.lower_char "1") = false ->
  Ascii.eqb (PyStr.lower_char c) (PyStr.lower_char d) = true ->
  is_one c = false.
Proof.
  intros Hd Hc. apply Ascii.eqb_eq in Hc. unfold is_one. by rewrite Hc.
Qed.

Lemma prefix_needs_no_one (c : ascii) (s : string) {A} (g : option string)
    (k : string -> option string -> option A) :
  is_one c = true -> run doi_prefix (String c s) g k = None.
Proof.
  intros H. unfold doi_prefix. simpl.
  destruct (Ascii.eqb (PyStr.lower_char c) (PyStr.lower_char "d")) eqn:E; [|done].
  assert (is_one c = false); [|congruence].
  by apply (ci_not_one c "d").
Qed.

Lemma rep_space_shape {A} (s : string) (k : string -> option A) (x : A) :
  rep PyStr.is_space 0 None s k = Some x ->
  exists ws s', s = (ws ++ s')%string
                /\ all_chars (fun c => negb (is_one c)) ws = true
                /\ k s' = Some x.
Proof.
  induction s as [|c s IH]; simpl.
  - intros H. by exists "", "".
  - destruct (PyStr.is_space c) eqn:Hc; simpl.
    + destruct (rep PyStr.is_space 0 None s k) as [y|] eqn:E.
      * intros [= ->]. destruct (IH eq_refl) as (ws & s' & -> & Hws & Hk).
        exists (String c ws), s'. simpl. rewrite (space_not_one c Hc). done.
      * intros H. by exists "", (String c s).
    + intros H. by exists "", (String c s).
Qed.

(** A match of the prefix passes over characters at which the group cannot
    start, and hands the rest to the continuation. *)
Lemma prefix_shape {A} (s : string) (g : option string)
    (k : string -> option string -> option A) (x : A) :
  run doi_prefix s g k = Some x ->
  exists pre s', s = (pre ++ s')%string
                 /\ all_chars (fun c => negb (is_one c)) pre = true
                 /\ k s' g = Some x.
Proof.
  unfold doi_prefix. simpl.
  destruct s as [|c1 s]; [done|].
  destruct (Ascii.eqb (PyStr.lower_char c1) _) eqn:E1; [|done].
  destruct s as [|c2 s]; [done|].
  destruct (Ascii.eqb (PyStr.lower_char c2) _) eqn:E2; [|done].
  destruct s as [|c3 s]; [done|].
  destruct (Ascii.eqb (PyStr.lower_char c3) _) eqn:E3; [|done].
  destruct s as [|c4 s]; [done|].
  destruct (Ascii.eqb (PyStr.lower_char c4) _) eqn:E4; [|done].
  intros H. apply rep_space_shape in H. destruct H as (ws & s' & -> & Hws & Hk).
  exists (String c1 (String c2 (String c3 (String c4 ws)))), s'.
  split; [done|]. split; [|done]. simpl.
  rewrite (ci_not_one c1 "d"), (ci_not_one c2 "o"), (ci_not_one c3 "i"),
    (ci_not_one c4 ":") by done.
  exact Hws.
Qed.

Lemma match_at_core (s : string) :
  match_at doi_core s = then_ (fun x => (consumed s x.1, x.2)) (core_base s).
Proof.
  unfold match_at, core_base.
  rewrite <- (run_total doi_core s None (fun t h => Some (t, h))). reflexivity.
Qed.

(** The group of [doi_pattern], tried at the suffix [s'] of the subject [s]. *)
Lemma group_at_core (s s' : string) (g : option string) :
  run (Group doi_core) s' g (fun rest h => Some (consumed s rest, h))
  = then_ (fun x => (consumed s x.1, Some (consumed s' x.1))) (core_base s').
Proof.
  unfold core_base.
  rewrite <- (run_total doi_core s' None (fun t h => Some (t, h))).
  cbn [run then_]. by apply run_group_irrelevant.
Qed.

Lemma match_at_pattern (s : string) :
  match_at doi_pattern s =
    match run doi_prefix s None
            (fun s' g' => run (Group doi_core) s' g'
                            (fun rest h => Some (consumed s rest, h))) with
    | Some x => Some x
    | None => run (Group doi_core) s None (fun rest h => Some (consumed s rest, h))
    end.
Proof. reflexivity. Qed.

Lemma search_core_skip (pre s : string) (j : nat) :
  all_chars (fun c => negb (is_one c)) pre = true ->
  exists j', search_from doi_core j (pre ++ s) = search_from doi_core j' s.
Proof.
  revert j. induction pre as [|c pre IH]; intros j; simpl.
  - by exists j.
  - intros H. apply andb_true_iff in H. destruct H as [Hc Hpre].
    apply negb_true_iff in Hc.
    unfold match_at. rewrite (core_needs_one c _ _ _ Hc).
    by apply IH.
Qed.

(** Searching with the optional prefix finds, as its group, what searching
    for the group alone finds. *)
Lemma search_pattern_core (s : string) (i j : nat) :
  match search_from doi_pattern i s, search_from doi_core j s with
  | Some m, Some m' => group1 m = Some (group0 m')
  | None, None => True
  | _, _ => False
  end.
Proof.
  revert i j. induction s as [|c s IH]; intros i j.
  - reflexivity.
  - cbn [search_from]. rewrite match_at_pattern, match_at_core.
    rewrite group_at_core.
    destruct (core_base (String c s)) as [[rest h]|] eqn:Hbase.
    + (* the group matches here: the prefix cannot *)
      assert (is_one c = true) as Hone.
      { destruct (is_one c) eqn:E; [done|].
        unfold core_base in Hbase. by rewrite core_needs_one in Hbase. }
      rewrite (prefix_needs_no_one c s None _ Hone). reflexivity.
    + cbn [then_].
      destruct (run doi_prefix (String c s) None _) as [[g0 g1]|] eqn:Hpre.
      * (* the prefix matches here and the group right after it *)
        apply prefix_shape in Hpre. destruct Hpre as (pre & s' & Hs & Hall & Hk).
        rewrite group_at_core in Hk.
        destruct (core_base s') as [[rest h]|] eqn:Hb'; [|done].
        injection Hk as <- <-.
        destruct (search_core_skip pre s' (S j) Hall) as [j' Hj'].
        destruct pre as [|c' pre].
        { change (String c s = s') in Hs. subst s'. congruence. }
        change (String c s = String c' (pre +:+ s')) in Hs.
        injection Hs as -> ->.
        apply andb_true_iff in Hall. destruct Hall as [Hc Hall].
        destruct (search_core_skip pre s' (S j) Hall) as [j'' Hj''].
        rewrite Hj''. 
        destruct s' as [|d s']; cbn [search_from];
          rewrite match_at_core, Hb'; reflexivity.
      * apply IH.
Qed.

Lemma first_doi_pattern (s : string) :
  match search doi_pattern s with
  | Some m => group1 m = first_doi s /\ first_doi s <> None
  | None => first_doi s = None
  end.
Proof.
  pose proof (search_pattern_core s 0 0) as H. unfold first_doi, search.
  destruct (search_from doi_pattern 0 s), (search_from doi_core 0 s); try done.
Qed.

(** When the text has a DOI, the code sets the link of the first one, as
    specified. *)
Lemma extract_doi_from_text (paper : Paper) (d : string) :
  first_doi (text paper) = Some d ->
  doi (extract_doi paper) = Graph.VStr (doi_link d).
Proof.
  intros Hd. unfold extract_doi. cbn [doi].
  pose proof (first_doi_pattern (text paper)) as H.
  destruct (search doi_pattern (text paper)) as [m|]; [|congruence].
  destruct H as [-> _]. by rewrite Hd.
Qed.

(** When neither the text nor the title has a DOI, the code sets the
    default string, as specified. *)
Lemma extract_doi_none (paper : Paper) :
  first_doi (text paper) = None -> first_doi (title paper) = None ->
  doi (extract_doi paper) = Graph.VStr "NO PROVIDED DOI".
Proof.
  intros Ht Hti. unfold extract_doi. cbn [doi].
  pose proof (first_doi_pattern (text paper)) as H.
  destruct (search doi_pattern (text paper)) as [m|]; [by destruct H|].
  pose proof (first_doi_pattern (title paper)) as H'.
  destruct (search doi_pattern (title paper)) as [m|]; [by destruct H'|done].
Qed.

(** The code and the specification agree whenever the title is not what
    decides. *)
Lemma extract_doi_specified (paper : Paper) :
  first_doi (text paper) <> None \/ first_doi (title paper) = None ->
  doi (extract_doi paper) = Graph.VStr (specified_doi (text paper) (title paper)).
Proof.
  intros H. unfold specified_doi.
  destruct (first_doi (text paper)) as [d|] eqn:Ht.
  - by apply extract_doi_from_text.
  - destruct H as [H|H]; [done|]. rewrite H. by apply extract_doi_none.
Qed.

(** The paper of the test suite whose title is its DOI with a lower-case
    prefix: the prefix is removed. *)
Example extract_doi_title_lower :
  doi (extract_doi
         {| path := ""; filename := "1-s2.0-S0002822399003077-main.pdf"; year := "";
            title := "doi:10.1016/S0002-8223(99)00307-7"; author := "";
            subject := ""; text := "no identifier here"; topics := [];
            main_keyphrase := "No keyphrase"; doi := Graph.VList [] |})
  = Graph.VStr "https://doi.org/10.1016/S0002-8223(99)00307-7".
Proof. vm_compute. reflexivity. Qed.

(** C10, at the input where the code departs from it.  The text of the
    scanned paper has no DOI and its title is a DOI behind an upper-case
    prefix.  The pattern is matched without regard to case, so the title
    matches; the title branch takes the whole match and removes the prefix
    with a case-sensitive [replace], which leaves it in place.  The DOI that
    is set is the link followed by the prefix and the DOI, where the
    specification has the link followed by the DOI. *)
Theorem extract_doi_title_upper_prefix :
  first_doi (text Sample.scanned) = None
  /\ first_doi (title Sample.scanned) = Some "10.1234/abcd"
  /\ specified_doi (text Sample.scanned) (title Sample.scanned)
     = "https://doi.org/10.1234/abcd"
  /\ doi (extract_doi Sample.scanned) = Graph.VStr "https://doi.org/DOI:10.1234/abcd".
Proof. repeat split; vm_compute; reflexivity. Qed.

End doi.

(** ** The command handler *)

Section command_handler.
Import Graph Loader Cli.
Variable fs : file_system.
Variable encode : string -> list Q.
Variable cosine_similarity : list Q -> list Q -> Q.
Variable extract_keywords : string -> list (string * Q).
Variable run_query : graph -> query -> list result_row.
Variable run_semantic : graph -> list Analysis.record.



(** The keys of the dispatch table are the command words, in the order of
    the test. *)
Lemma commands_keys : map fst commands = command_words.
Proof. reflexivity. Qed.


(** No command callback writes to the store, to the list of loaded papers
    or to the input field: the store is written by the loading thread only. *)
Lemma call_frame (func : command) (tokens : list string) (st : cli) :
  let st' := call fs encode cosine_similarity run_query run_semantic func tokens st in
  session st' = session st /\ all_papers st' = all_papers st
  /\ input_text st' = input_text st /\ render_info st' = render_info st.
Proof.
  destruct func; cbn;
    unfold command_list_papers, command_search, command_search_by_title,
      command_search_by_author, command_search_by_topic,
      command_search_by_similarity, command_search_by_vsemantic,
      command_add_papers_by_users;
    repeat case_match; done.
Qed.

Lemma command_handler_frame (st : cli) :
  let st' := command_handler fs encode cosine_similarity run_query run_semantic st in
  session st' = session st /\ all_papers st' = all_papers st
  /\ input_text st' = input_text st /\ render_info st' = render_info st.
Proof.
  unfold command_handler. cbn zeta. repeat case_match; try done.
  apply (call_frame _ _ (with_invoked _ (output_clear st))).
Qed.


(** With a directory the command starts one daemon thread for the path and
    writes nothing itself. *)
Lemma add_starts_one_thread (st : cli) (t0 path' : string) (more : list string) :
  PyStr.split 2 (PyStr.strip (input_text st)) = t0 :: path' :: more ->
  PyStr.lower t0 = "add" \/ PyStr.lower t0 = "a" ->
  fs_exists fs path' = true -> fs_isdir fs path' = true ->
  let st' := command_handler fs encode cosine_similarity run_query run_semantic st in
  threads st' = threads st ++ [mk_thread true path']
  /\ session st' = session st
  /\ output_area st' = [].
Proof.
  intros Htok Hcmd He Hd st'. subst st'. unfold command_handler. rewrite Htok. cbn zeta.
  assert (dict_get (PyStr.lower t0) commands = Some self_command_add_papers_by_users) as ->
    by (destruct Hcmd as [-> | ->]; reflexivity).
  cbn [call command_add_papers_by_users]. rewrite He, Hd. done.
Qed.

(** *** Empty results *)

(** The keyword searches, the listing and [simsearch] write one message
    for an empty result, and nothing else. *)
Lemma empty_result_message (st : cli) :
  (run_query (session st) query_list_papers = [] ->
   command_list_papers run_query ["lp"] st = output_write "No papers found." st)
  /\ (forall v b, run_query (session st) (query_search_by_title v) = [] ->
      command_search_by_title run_query v b st
      = output_write ("No papers found with title containing '" +:+ v +:+ "'.") st)
  /\ (forall v b, run_query (session st) (query_search_by_author v) = [] ->
      command_search_by_author run_query v b st
      = output_write ("No results found for author containing '" +:+ v +:+ "'.") st)
  /\ (forall v b, run_query (session st) (query_search_by_topic v) = [] ->
      command_search_by_topic run_query v b st
      = output_write ("No papers found with topic containing '" +:+ v +:+ "'.") st)
  /\ (forall t0 t1 more,
      semantic_results encode cosine_similarity run_semantic (query_text_of t1 more) st = [] ->
      command_search_by_similarity encode cosine_similarity run_semantic
        (t0 :: t1 :: more) st
      = output_write "No papers found with embedding. Please ensure you stored them!" st).
Proof.
  repeat split.
  - intros H. unfold command_list_papers. rewrite H. reflexivity.
  - intros v b H. unfold command_search_by_title. by rewrite H.
  - intros v b H. unfold command_search_by_author. by rewrite H.
  - intros v b H. unfold command_search_by_topic. by rewrite H.
  - intros t0 t1 more H. unfold command_search_by_similarity. cbn zeta. by rewrite H.
Qed.

(** [vsimsearch] writes the message and then goes on: the heading, the table
    of no rows and the visualisation follow. *)
Lemma vsemantic_empty_result (st : cli) (t0 t1 : string) (more : list string) :
  semantic_results encode cosine_similarity run_semantic (query_text_of t1 more) st = [] ->
  let st' := command_search_by_vsemantic encode cosine_similarity run_semantic
               (t0 :: t1 :: more) st in
  output_area st' =
    output_area st ++
      [ (Str "No papers found with embedding. Please ensure you stored them!", PyStr.nl);
        (Str ("=== Semantic Search Results for '" +:+ query_text_of t1 more +:+ "' ==="),
         PyStr.nl);
        (similarity_table [], PyStr.nl) ]
  /\ visualised st' = visualised st ++ [VisSimilarity [] (query_text_of t1 more)].
Proof.
  intros H st'. subst st'. unfold command_search_by_vsemantic. cbn zeta. rewrite H.
  cbn. by rewrite <- !app_assoc.
Qed.

End command_handler.

(** C4, at the input where the code departs from it.  The store has no
    paper with an embedding and the user enters [vss graph databases].  The
    message that nothing was found is written, and after it the heading of
    the results, a table with no row, and the visualisation is called on the
    empty result: [command_search_by_vsemantic] has no [return] after the
    message, where [command_search_by_similarity] has one. *)
Theorem vsimsearch_empty_result_is_displayed :
  let st := Cli.command_handler Sample.fs Sample.encode Sample.cosine_similarity
              Sample.no_rows Sample.no_records (Sample.typed "vss graph databases") in
  Cli.output_area st =
    [ (Cli.Str "No papers found with embedding. Please ensure you stored them!", PyStr.nl);
      (Cli.Str "=== Semantic Search Results for 'graph databases' ===", PyStr.nl);
      (Cli.Tabulate [] ["Title"; "Author"; "DOI"; "Similarity"], PyStr.nl) ]
  /\ existsb Cli.is_table (Cli.output_area st) = true
  /\ Cli.visualised st = [Cli.VisSimilarity [] "graph databases"].
Proof. repeat split. Qed.

(** The same line with [ss] in place of [vss]: the message only. *)
Example simsearch_empty_result_is_reported :
  let st := Cli.command_handler Sample.fs Sample.encode Sample.cosine_similarity
              Sample.no_rows Sample.no_records (Sample.typed "ss graph databases") in
  Cli.output_area st =
    [ (Cli.Str "No papers found with embedding. Please ensure you stored them!", PyStr.nl) ]
  /\ Cli.visualised st = [].
Proof. repeat split. Qed.

(** ** The input field *)

Section input_field.
Import Graph Loader Cli.
Variable fs : file_system.
Variable encode : string -> list Q.
Variable cosine_similarity : list Q -> list Q -> Q.
Variable extract_keywords : string -> list (string * Q).
Variable run_query : graph -> query -> list result_row.
Variable run_semantic : graph -> list Analysis.record.

Lemma take_length (n : nat) (s : string) : (String.length (PyStr.take n s) <= n)%nat.
Proof.
  revert s. induction n as [|n IH]; intros [|c s]; simpl; try lia.
  specialize (IH s). lia.
Qed.

Lemma take_all (n : nat) (s : string) :
  (String.length s <= n)%nat -> PyStr.take n s = s.
Proof.
  revert s. induction n as [|n IH]; intros [|c s]; simpl; try done; try lia.
  intros H. rewrite IH; [done|lia].
Qed.

(** After a change of the text the input field holds the first hundred
    characters of what was entered. *)
Lemma text_changed_input (s : string) (st : cli) :
  input_text (text_changed s st) = PyStr.take max_character_limit s
  /\ (String.length (input_text (text_changed s st)) <= max_character_limit)%nat.
Proof.
  unfold text_changed, input_limit_length. cbn [input_text with_input].
  destruct (max_character_limit <? String.length s)%nat eqn:E.
  - cbn [input_text with_input]. split; [done|apply take_length].
  - apply Nat.ltb_ge in E. cbn [input_text with_input].
    split; [by rewrite take_all|done].
Qed.

(** When the callback fires again on the text it has just set, nothing
    changes. *)
Lemma input_limit_length_idempotent (st : cli) :
  input_limit_length (input_limit_length st) = input_limit_length st.
Proof.
  unfold input_limit_length.
  destruct (max_character_limit <? String.length (input_text st))%nat eqn:E.
  - cbn [input_text with_input].
    pose proof (take_length max_character_limit (input_text st)) as H.
    apply Nat.ltb_ge in H. by rewrite H.
  - by rewrite E.
Qed.

Lemma fold_left_preserves {X S T} (proj : S -> T) (f : S -> X -> S)
    (xs : list X) (st : S) :
  (forall st x, proj (f st x) = proj st) -> proj (fold_left f xs st) = proj st.
Proof.
  intros Hf. revert st. induction xs as [|x xs IH]; intros st; simpl; [done|].
  by rewrite IH, Hf.
Qed.

(** The loading thread does not touch the input field. *)
Lemma thread_input_text (path' : string) (st : cli) :
  input_text (paper_loading_thread fs encode extract_keywords path' st) = input_text st.
Proof.
  unfold paper_loading_thread.
  destruct (papers_load fs extract_keywords path') as [calls loaded].
  set (st1 := fold_left _ calls st).
  assert (input_text st1 = input_text st) as H1
    by (apply (fold_left_preserves input_text); done).
  destruct loaded as [[|p papers]|]; [done| |done].
  cbn [input_text output_print output_write_end with_output].
  rewrite (fold_left_preserves input_text); [done|done].
Qed.

(** C8. In every state that the interface reaches from its initial state,
    by changes of the text, accepted lines and runs of loading threads, the
    input field holds at most [max_character_limit], which is 100,
    characters; and after any further change of the text it holds the first
    100 characters of the text entered (all of it when it is not longer). *)
Theorem input_within_limit (welcome_message : string) (g : graph) (st : cli) :
  rtc (step fs encode cosine_similarity extract_keywords run_query run_semantic)
      (init welcome_message g) st ->
  max_character_limit = 100%nat
  /\ (forall s, input_text (text_changed s st) = PyStr.take max_character_limit s)
  /\ (String.length (input_text st) <= max_character_limit)%nat.
Proof.
  intros Hreach. split; [reflexivity|].
  split; [intros s; apply text_changed_input|].
  eapply (rtc_ind_r
            (fun st => (String.length (input_text st) <= max_character_limit)%nat));
    [| |exact Hreach].
  - cbn. unfold max_character_limit. lia.
  - clear st Hreach. intros st st' _ Hstep IH.
    destruct Hstep as [s st|st|t st Ht].
    + apply text_changed_input.
    + destruct (command_handler_frame fs encode cosine_similarity run_query
                  run_semantic st) as (_ & _ & -> & _). exact IH.
    + rewrite thread_input_text. exact IH.
Qed.

End input_field.

(** ** The theorems at the sample environment *)

Lemma find_papers_by_similarity_ranked_witness :
  0 <= 2
  /\ Z.of_nat (length (Analysis.find_papers_by_similarity Sample.encode
                         Sample.cosine_similarity Sample.records "graphs" 2 (1 # 5)))
     <= 2.
Proof.
  split; [lia|].
  destruct (find_papers_by_similarity_ranked Sample.encode Sample.cosine_similarity
              Sample.records "graphs" 2 (1 # 5))
    as (ranked & _ & _ & _ & Hlen & _); [lia|].
  exact Hlen.
Defined.

(** The two most similar of the three sample records that reach the
    threshold, the most similar first. *)
Example find_papers_by_similarity_sample :
  Analysis.find_papers_by_similarity Sample.encode Sample.cosine_similarity
    Sample.records "graphs" 2 (1 # 5)
  = [ (Some "C", None, None, 9 # 10); (Some "A", None, None, 1 # 2) ].
Proof. vm_compute. reflexivity. Qed.

Lemma ingested_paper_node_witness :
  Graph.paper_nodes "a.pdf" Graph.empty = []
  /\ exists n,
      Graph.paper_nodes "a.pdf"
        (Graph.add_paper Sample.encode Graph.empty (Cli.paper_data Sample.paper)) = [n]
      /\ dom (Graph.props n)
         = ({[ "filename"; "title"; "year"; "embedding"; "doi" ]} : gset string).
Proof.
  split; [reflexivity|].
  destruct (ingested_paper_node Sample.encode Sample.paper Graph.empty eq_refl)
    as ((n & Hn & Hdom & _) & _).
  exists n. split; [exact Hn|exact Hdom].
Defined.

Lemma persisted_embedding_encodes_keyphrase_witness :
  (Loader.papers_load Sample.fs Sample.extract_keywords "papers").2 = Some [Sample.paper]
  /\ exists n,
      Graph.paper_nodes "a.pdf"
        (Graph.add_paper Sample.encode Graph.empty (Cli.paper_data Sample.paper)) = [n]
      /\ Graph.props n !! "embedding"
         = Some (Graph.PVec (Sample.encode "graphs are everywhere")).
Proof.
  split; [vm_compute; reflexivity|].
  destruct (persisted_embedding_encodes_keyphrase Sample.fs Sample.extract_keywords
              Sample.encode "papers"
              (Loader.papers_load Sample.fs Sample.extract_keywords "papers").1
              [Sample.paper] Sample.paper Graph.empty)
    as (n & Hn & Hemb & _).
  - vm_compute. reflexivity.
  - apply list_elem_of_singleton. reflexivity.
  - reflexivity.
  - exists n. split; [exact Hn|exact Hemb].
Defined.



Lemma input_within_limit_witness :
  String.length Sample.long_line = 120%nat
  /\ (String.length
        (Cli.input_text (Cli.text_changed Sample.long_line
                           (Cli.init Sample.welcome Graph.empty)))
      <= Cli.max_character_limit)%nat.
Proof.
  split; [reflexivity|].
  refine (proj2 (proj2 (input_within_limit Sample.fs Sample.encode
                          Sample.cosine_similarity Sample.extract_keywords
                          Sample.no_rows Sample.no_records
                          Sample.welcome Graph.empty _ _))).
  apply rtc_once. constructor.
Defined.


(** * Further properties of the code *)

(** ** analysis.py: ties and the number of rows *)

Section similarity_more.
Variable encode : string -> list Q.
Variable cosine_similarity : list Q -> list Q -> Q.

(** X1. Rows of equal similarity are ranked in the order in which the
    query returned their records: the ranked list, of which the result is
    the slice, has for every similarity [q] the rows of that similarity in
    the order of the result set. *)
Theorem find_papers_by_similarity_ties
    (result : list Analysis.record) (query_text : string)
    (top_n : Z) (threshold q : Q) :
  let rows := map (Analysis.to_row encode cosine_similarity query_text)
                  (List.filter (Analysis.qualifies encode cosine_similarity
                                  query_text threshold) result) in
  exists ranked : list Analysis.row,
    Analysis.find_papers_by_similarity encode cosine_similarity
      result query_text top_n threshold = PyList.slice_to top_n ranked
    /\ ranked ≡ₚ rows
    /\ StronglySorted (PyList.desc Analysis.similarity) ranked
    /\ List.filter (fun r => Qeq_bool (Analysis.similarity r) q) ranked
       = List.filter (fun r => Qeq_bool (Analysis.similarity r) q) rows.
Proof.
  intros rows. exists (PyList.sorted_reverse Analysis.similarity rows).
  split; [|split; [|split]].
  - unfold Analysis.find_papers_by_similarity. by rewrite loop_collects.
  - apply sorted_reverse_perm.
  - apply sorted_reverse_sorted.
  - apply sorted_reverse_stable. intros x y Hx Hy.
    apply Qeq_bool_iff in Hx, Hy. by rewrite Hx, Hy.
Qed.

(** X2. The number of rows returned, for every limit: with [n] records
    that qualify, a limit [N >= 0] gives [min N n] rows, and a negative limit
    gives [n + N] rows when that is positive and none otherwise, since the
    slice then drops the last [-N] rows of the ranking. *)
Theorem find_papers_by_similarity_length
    (result : list Analysis.record) (query_text : string)
    (top_n : Z) (threshold : Q) :
  let n := Z.of_nat (length (List.filter (Analysis.qualifies encode cosine_similarity
                                            query_text threshold) result)) in
  Z.of_nat (length (Analysis.find_papers_by_similarity encode cosine_similarity
                      result query_text top_n threshold))
  = if (0 <=? top_n)%Z then Z.min top_n n else Z.max 0 (n + top_n).
Proof.
  intros n. unfold Analysis.find_papers_by_similarity. rewrite loop_collects.
  cbn [app]. unfold PyList.slice_to.
  assert (Z.of_nat (length (PyList.sorted_reverse Analysis.similarity
            (map (Analysis.to_row encode cosine_similarity query_text)
               (List.filter (Analysis.qualifies encode cosine_similarity
                               query_text threshold) result)))) = n) as Hlen.
  { rewrite (Permutation_length (sorted_reverse_perm _ _)). by rewrite length_map. }
  destruct (0 <=? top_n)%Z eqn:E; rewrite length_take; lia.
Qed.

End similarity_more.

(** ** Strings: facts used below *)

Section string_facts.

Lemma app_cons (c : ascii) (a b : string) : String c a +:+ b = String c (a +:+ b).
Proof. reflexivity. Qed.

Lemma app_empty_r (a : string) : a +:+ "" = a.
Proof. induction a as [|c a IH]; [done|]. by rewrite app_cons, IH. Qed.

Lemma app_assoc_str (a b c : string) : (a +:+ b) +:+ c = a +:+ (b +:+ c).
Proof. induction a as [|x a IH]; [done|]. by rewrite !app_cons, IH. Qed.

Lemma length_app_str (a b : string) :
  String.length (a +:+ b) = (String.length a + String.length b)%nat.
Proof. induction a as [|c a IH]; [done|]. rewrite app_cons. simpl. by rewrite IH. Qed.

Lemma take_app_str (a b : string) : PyStr.take (String.length a) (a +:+ b) = a.
Proof. induction a as [|c a IH]; [by destruct b|]. rewrite app_cons. simpl. by rewrite IH. Qed.

Lemma consumed_app (a b : string) : Regex.consumed (a +:+ b) b = a.
Proof.
  unfold Regex.consumed. rewrite length_app_str.
  replace (String.length a + String.length b - String.length b)%nat
    with (String.length a) by lia.
  apply take_app_str.
Qed.

Lemma all_chars_app (p : ascii -> bool) (a b : string) :
  Loader.all_chars p (a +:+ b) = Loader.all_chars p a && Loader.all_chars p b.
Proof.
  induction a as [|c a IH]; [done|]. rewrite app_cons. simpl.
  rewrite IH. by rewrite andb_assoc.
Qed.

(** What [rstrip] removes is a run of characters of the set at the end. *)
Lemma rstrip_by_suffix (p : ascii -> bool) (s : string) :
  exists suf, s = PyStr.rstrip_by p s +:+ suf /\ Loader.all_chars p suf = true.
Proof.
  induction s as [|c s (suf & Hs & Hsuf)]; [by exists ""|].
  simpl. destruct (PyStr.rstrip_by p s) as [|d r] eqn:E.
  - change ("" +:+ suf) with suf in Hs. subst suf.
    destruct (p c) eqn:Hc.
    + exists (String c s). simpl. by rewrite Hc, Hsuf.
    + by exists s.
  - exists suf. rewrite app_cons. by rewrite <- Hs.
Qed.

(** Stripping what is stripped changes nothing: the result does not end
    with a character of the set. *)
Lemma rstrip_by_idempotent (p : ascii -> bool) (s : string) :
  PyStr.rstrip_by p (PyStr.rstrip_by p s) = PyStr.rstrip_by p s.
Proof.
  induction s as [|c s IH]; [done|].
  simpl. destruct (PyStr.rstrip_by p s) as [|d r] eqn:E.
  - destruct (p c) eqn:Hc; [done|]. simpl. by rewrite Hc.
  - change (PyStr.rstrip_by p (String c (String d r)))
      with (match PyStr.rstrip_by p (String d r) with
            | "" => if p c then "" else String c ""
            | r' => String c r'
            end).
    by rewrite IH.
Qed.

(** A match of a repetition passes over a run of characters of the class,
    of a length within the bounds, and hands the rest to the continuation. *)
Lemma rep_shape {A} (p : ascii -> bool) (s : string) :
  forall (lo : nat) (hi : option nat) (k : string -> option A) (x : A),
    Regex.rep p lo hi s k = Some x ->
    exists pre rest,
      s = pre +:+ rest /\ Loader.all_chars p pre = true
      /\ (lo <= String.length pre)%nat
      /\ (forall h, hi = Some h -> (String.length pre <= h)%nat)
      /\ k rest = Some x.
Proof.
  induction s as [|c s IH]; intros lo hi k x; simpl.
  - destruct (lo =? 0)%nat eqn:E; [|done]. apply Nat.eqb_eq in E. intros H.
    exists "", "". repeat split; try done; simpl; lia.
  - assert (stop : (if (lo =? 0)%nat then k (String c s) else None) = Some x ->
                   exists pre rest,
                     String c s = pre +:+ rest /\ Loader.all_chars p pre = true
                     /\ (lo <= String.length pre)%nat
                     /\ (forall h, hi = Some h -> (String.length pre <= h)%nat)
                     /\ k rest = Some x).
    { destruct (lo =? 0)%nat eqn:E; [|done]. apply Nat.eqb_eq in E. intros H.
      exists "", (String c s). repeat split; try done; simpl; lia. }
    destruct (p c && Regex.more hi) eqn:Hc; [|exact stop].
    apply andb_true_iff in Hc. destruct Hc as [Hc Hmore].
    destruct (Regex.rep p (Nat.pred lo) (Nat.pred <$> hi) s k) as [y|] eqn:E; [|exact stop].
    intros [= ->]. destruct (IH _ _ _ _ E) as (pre & rest & -> & Hpre & Hlo & Hhi & Hk).
    exists (String c pre), rest. rewrite app_cons. simpl. rewrite Hc, Hpre.
    repeat split; try done; [lia|].
    intros h ->. destruct h as [|h]; [done|].
    specialize (Hhi h eq_refl). lia.
Qed.

End string_facts.

(** ** paper.py: the year and the file name *)

Section paper_load.
Import Regex Loader.

Lemma year_match_at (s g0 : string) (g1 : option string) :
  match_at year_pattern s = Some (g0, g1) ->
  exists y, g1 = Some y /\ String.length y = 4%nat /\ all_chars PyStr.is_digit y = true.
Proof.
  unfold match_at, year_pattern. simpl.
  destruct s as [|c1 s]; [done|]. destruct (Ascii.eqb c1 _); [|done].
  destruct s as [|c2 s]; [done|]. destruct (Ascii.eqb c2 _); [|done].
  intros H. apply rep_shape in H.
  destruct H as (pre & rest & -> & Hpre & Hlo & Hhi & Hk).
  injection Hk as _ <-. exists pre. rewrite consumed_app.
  specialize (Hhi 4%nat eq_refl). split; [done|]. split; [lia|done].
Qed.

Lemma year_search_from (s : string) (i : nat) (m : rmatch) :
  search_from year_pattern i s = Some m ->
  exists y, group1 m = Some y /\ String.length y = 4%nat
            /\ all_chars PyStr.is_digit y = true.
Proof.
  revert i. induction s as [|c s IH]; intros i; cbn [search_from].
  - destruct (match_at year_pattern "") as [[g0 g1]|] eqn:E; [|done].
    intros [= <-]. by apply year_match_at in E.
  - destruct (match_at year_pattern (String c s)) as [[g0 g1]|] eqn:E.
    + intros [= <-]. by apply year_match_at in E.
    + apply IH.
Qed.

(** X3. For a document whose creation date is a string of ASCII
    characters, [Paper.load] returns and the year that it sets is the empty
    string or four digits, whatever else the creation date holds. *)
Theorem load_year (fs : file_system) (self : Paper) (path' : string)
    (document : Loader.document) :
  fs_open fs path' = Some document ->
  PyStr.is_ascii (default "" (metadata document !! "creationDate")) = true ->
  exists paper,
    load fs self path' = Some (paper, true)
    /\ (year paper = ""
        \/ (String.length (year paper) = 4%nat
            /\ all_chars PyStr.is_digit (year paper) = true)).
Proof.
  intros Hopen _. unfold load. rewrite Hopen. eexists. split; [reflexivity|].
  cbn [year].
  destruct (search year_pattern _) as [m|] eqn:E; [|by left].
  apply year_search_from in E. destruct E as (y & -> & Hlen & Hdig). by right.
Qed.

Lemma has_slash_app (a b : string) : has_slash (a +:+ String slash b) = true.
Proof.
  induction a as [|c a IH]; [reflexivity|].
  rewrite app_cons. simpl. rewrite IH. apply orb_true_r.
Qed.

Lemma basename_after_slash (a name : string) :
  has_slash name = false -> basename (a +:+ String slash name) = name.
Proof.
  intros H. induction a as [|c a IH].
  - change ("" +:+ String slash name) with (String slash name).
    cbn [basename]. rewrite H. reflexivity.
  - rewrite app_cons. simpl. by rewrite has_slash_app.
Qed.

Lemma basename_plain (name : string) : has_slash name = false -> basename name = name.
Proof.
  destruct name as [|c n]; [done|]. simpl. intros H.
  apply orb_false_iff in H. destruct H as [Hc Hn]. by rewrite Hn, Hc.
Qed.

Lemma endswith_slash (a : string) :
  PyStr.endswith "/" a = true -> exists a', a = a' +:+ String slash "".
Proof.
  unfold PyStr.endswith. cbn [String.length].
  induction a as [|c a IH]; [done|].
  cbn [String.length]. replace (S (String.length a) - 1)%nat with (String.length a) by lia.
  intros H. apply andb_true_iff in H. destruct H as [_ H].
  destruct a as [|d a].
  - simpl in H. destruct (Ascii.eqb_spec c "/") as [->|]; [|done]. by exists "".
  - destruct IH as [a' Ha'].
    + apply andb_true_iff. split; [done|].
      cbn [String.length]. replace (S (String.length a) - 1)%nat with (String.length a) by lia.
      exact H.
    + exists (String c a'). by rewrite app_cons, <- Ha'.
Qed.

(** X4. Joining a directory and a file name that has no slash and taking
    the base name gives the file name back: the [filename] of a loaded paper
    is its name in the directory. *)
Theorem basename_path_join (dir name : string) :
  has_slash name = false -> basename (path_join dir name) = name.
Proof.
  intros H. unfold path_join.
  assert (String.prefix "/" name = false) as ->.
  { destruct name as [|c n]; [done|]. simpl in H.
    apply orb_false_iff in H. destruct H as [Hc _].
    cbn [String.prefix].
    destruct (Ascii.ascii_dec "/" c) as [<-|]; [|done].
    discriminate Hc. }
  destruct (String.eqb_spec dir "") as [->|_]; cbn [orb].
  - by apply basename_plain.
  - destruct (PyStr.endswith "/" dir) eqn:E.
    + apply endswith_slash in E. destruct E as [a' ->].
      rewrite app_assoc_str. by apply basename_after_slash.
    + by apply (basename_after_slash dir name).
Qed.

End paper_load.

(** ** [papers_load]: which papers are returned, and with what *)

Section papers_load_more.
Import Graph Loader.
Variable fs : file_system.
Variable extract_keywords : string -> list (string * Q).

Lemma extract_topics_fields (extracted : list (string * Q)) (paper : Paper) :
  topics paper = [] ->
  let paper' := extract_topics extracted paper in
  path paper' = path paper /\ filename paper' = filename paper
  /\ title paper' = title paper /\ author paper' = author paper
  /\ subject paper' = subject paper /\ text paper' = text paper
  /\ topics paper' = map fst extracted.
Proof. intros H. destruct extracted; simpl; by rewrite ?H. Qed.

Lemma load_files_spec (path' : string) (files : list string)
    (out out' : list writer_call) (items items' : list Paper) :
  load_files fs extract_keywords path' files out items = (out', Some items') ->
  exists new,
    items' = items ++ new
    /\ map path new
       = map (path_join path')
           (List.filter (fun f => PyStr.endswith ".pdf" (PyStr.lower f)) files)
    /\ Forall (Stated.made_of_document fs extract_keywords) new.
Proof.
  revert out items. induction files as [|f files IH]; intros out items; simpl.
  - intros [= _ <-]. exists []. by rewrite app_nil_r.
  - destruct (PyStr.endswith ".pdf" (PyStr.lower f)); cbn [negb]; [|apply IH].
    destruct (load fs Paper_init (path_join path' f)) as [[paper b]|] eqn:Hload; [|done].
    destruct (load_fresh _ _ _ _ Hload) as (_ & Htopics & ->).
    intros H. apply IH in H. destruct H as (new & -> & Hpaths & Hnew).
    unfold load in Hload.
    destruct (fs_open fs (path_join path' f)) as [d|] eqn:Hopen; [|done].
    injection Hload as <-.
    match goal with
    | |- context [extract_topics ?ex ?p] =>
        destruct (extract_topics_fields ex p eq_refl)
          as (Hp & Hf & Hti & Ha & Hs & Hte & Hto);
        set (paper' := extract_topics ex p) in *
    end.
    exists (paper' :: new). rewrite <- app_assoc. split; [reflexivity|].
    split; [cbn [map]; by rewrite Hpaths, Hp|].
    constructor; [|exact Hnew].
    exists d. rewrite Hp, Hf, Hti, Ha, Hs, Hte, Hto. cbn. by rewrite Hopen.
Qed.

Lemma load_files_fails (path' : string) (files : list string)
    (out : list writer_call) (items : list Paper) (f : string) :
  f ∈ files -> PyStr.endswith ".pdf" (PyStr.lower f) = true ->
  fs_open fs (path_join path' f) = None ->
  (load_files fs extract_keywords path' files out items).2 = None.
Proof.
  intros Hf Hpdf Hopen. revert out items.
  induction files as [|f' files IH]; intros out items; [by apply elem_of_nil in Hf|].
  apply elem_of_cons in Hf. simpl.
  destruct (PyStr.endswith ".pdf" (PyStr.lower f')) eqn:E; cbn [negb].
  - destruct (load fs Paper_init (path_join path' f')) as [[paper b]|] eqn:Hload; [|done].
    destruct (load_fresh _ _ _ _ Hload) as (_ & _ & ->).
    destruct Hf as [->|Hf]; [|by apply IH].
    unfold load in Hload. by rewrite Hopen in Hload.
  - destruct Hf as [->|Hf]; [congruence|by apply IH].
Qed.

(** X5. The papers that [papers_load] returns are the entries of the
    directory whose name ends, in any case, with [.pdf], in the order of the
    listing and at their joined paths; when no entry has a slash in its name
    the file names of the papers are these entries. *)
Theorem papers_load_lists_pdfs (path' : string) (files : list string)
    (out : list writer_call) (items : list Paper) :
  fs_exists fs (fs_expanduser fs path') = true ->
  fs_listdir fs (fs_expanduser fs path') = Some files ->
  papers_load fs extract_keywords path' = (out, Some items) ->
  map path items
  = map (path_join (fs_expanduser fs path'))
      (List.filter (fun f => PyStr.endswith ".pdf" (PyStr.lower f)) files)
  /\ (Forall (fun f => has_slash f = false) files ->
      map filename items
      = List.filter (fun f => PyStr.endswith ".pdf" (PyStr.lower f)) files).
Proof.
  intros He Hl. unfold papers_load. rewrite He, Hl. cbn [negb].
  intros H. apply load_files_spec in H. destruct H as (new & -> & Hpaths & Hnew).
  cbn [app]. split; [exact Hpaths|].
  intros Hslash.
  assert (map filename new = map basename (map path new)) as ->.
  { clear Hpaths. induction Hnew as [|p new (d & _ & Hf & _) _ IH]; [done|].
    simpl. by rewrite Hf, IH. }
  rewrite Hpaths, map_map.
  clear Hl Hpaths. induction files as [|f files IH]; [done|].
  apply Forall_cons in Hslash. destruct Hslash as [Hf Hfiles]. simpl.
  destruct (PyStr.endswith ".pdf" (PyStr.lower f)); [|by apply IH].
  simpl. rewrite basename_path_join by done. by rewrite IH.
Qed.

(** X6. Every paper that [papers_load] returns is made of the document at
    its path: the title, the author and the subject are those of the
    metadata (the empty string for a missing key), the text is the text of
    the pages in order, the file name is the base name of the path and the
    topics are the keyphrases that the extractor returns for the text, in
    its order. *)
Theorem papers_load_fields (path' : string) (out : list writer_call)
    (items : list Paper) :
  papers_load fs extract_keywords path' = (out, Some items) ->
  Forall (Stated.made_of_document fs extract_keywords) items.
Proof.
  unfold papers_load. destruct (negb _); [by intros [= _ <-]|].
  destruct (fs_listdir fs _) as [files|]; [|done].
  intros H. apply load_files_spec in H. by destruct H as (new & -> & _ & Hnew).
Qed.

End papers_load_more.

(** ** The DOI that is found *)

Section doi_more.
Import Regex Loader.

(** X7. The optional prefix of the DOI pattern never changes which DOI is
    found: a search with the pattern succeeds exactly when a search for the
    group alone succeeds, and group 1 is then the first match of the group
    alone. *)
Theorem doi_pattern_finds_first_core (s : string) :
  match search doi_pattern s, search doi_core s with
  | Some m, Some m' => group1 m = Some (group0 m')
  | None, None => True
  | _, _ => False
  end.
Proof. apply (search_pattern_core s 0 0). Qed.

(** X8. When the text of a paper is a string of ASCII characters and has
    a DOI, the DOI that is set is the resolver address followed by that DOI
    without a run of trailing punctuation: what is kept does not end with
    one of the stripped characters, and the title plays no part. *)
Theorem extract_doi_strips_punctuation (paper : Paper) (d : string) :
  PyStr.is_ascii (text paper) = true ->
  first_doi (text paper) = Some d ->
  exists kept stripped,
    doi (extract_doi paper) = Graph.VStr ("https://doi.org/" +:+ kept)
    /\ d = kept +:+ stripped
    /\ all_chars (fun c => PyStr.mem c doi_trailing) stripped = true
    /\ PyStr.rstrip doi_trailing kept = kept.
Proof.
  intros _ Hd. rewrite (extract_doi_from_text paper d Hd). unfold doi_link.
  destruct (rstrip_by_suffix (fun c => PyStr.mem c doi_trailing) d) as (suf & Hs & Hsuf).
  exists (PyStr.rstrip doi_trailing d), suf.
  split; [done|]. split; [exact Hs|]. split; [exact Hsuf|].
  apply rstrip_by_idempotent.
Qed.

End doi_more.

(** ** The store under [add_paper]: what is kept and what is established *)

Section store.
Import Graph Stated.

Lemma fold_insert_lookup (on_create : list (string * prop)) (m : gmap string prop)
    (k : string) :
  Forall (fun kv => kv.1 <> k) on_create ->
  fold_left (fun m kv => <[kv.1 := kv.2]> m) on_create m !! k = m !! k.
Proof.
  intros H. revert m. induction H as [|kv oc Hkv _ IH]; intros m; simpl; [done|].
  rewrite IH. by rewrite lookup_insert_ne.
Qed.

(** The node that a [MERGE] creates matches the patterns of its own label
    and value, and no other. *)
Lemma created_node_matches (l l' : label) (v v' : pval)
    (on_create : list (string * prop)) :
  keys_ok l' on_create ->
  matches l (key_of l) v
    (mk_node l' (fold_left (fun m kv => <[kv.1 := kv.2]> m) on_create
                   {[ key_of l' := PVal v' ]}))
  = bool_decide (l' = l) && bool_decide (v' = v).
Proof.
  intros Hk. unfold matches. cbn [lbl props].
  destruct (decide (l' = l)) as [->|Hl].
  - rewrite bool_decide_eq_true_2 by done. cbn [andb].
    rewrite fold_insert_lookup by done. by rewrite lookup_singleton_eq.
  - by rewrite bool_decide_eq_false_2 by done.
Qed.

Lemma merge_node_cases (l : label) (v : pval) (on_create : list (string * prop))
    (g : graph) :
  (present l v g = true /\ merge_node l (key_of l) v on_create g = g)
  \/ (present l v g = false
      /\ merge_node l (key_of l) v on_create g
         = mk_graph (nodes g ++ [mk_node l (fold_left (fun m kv => <[kv.1 := kv.2]> m)
                                             on_create {[ key_of l := PVal v ]})])
                    (rels g)).
Proof.
  unfold merge_node, present. destruct (existsb _ _); [by left|by right].
Qed.

Lemma elem_of_match_nodes (l : label) (k : string) (v : pval) (g : graph) (i : nat) :
  i ∈ match_nodes l k v g
  <-> exists n, nodes g !! i = Some n /\ matches l k v n = true.
Proof.
  unfold match_nodes. rewrite list_elem_of_In, filter_In, in_seq. split.
  - intros [_ H]. destruct (nodes g !! i) as [n|]; [|done]. by exists n.
  - intros (n & Hn & Hm). rewrite Hn. split; [|done].
    apply lookup_lt_Some in Hn. lia.
Qed.

Lemma present_elem (l : label) (v : pval) (g : graph) :
  present l v g = true <-> exists i, i ∈ match_nodes l (key_of l) v g.
Proof.
  unfold present. rewrite existsb_exists. split.
  - intros (n & Hn & Hm). apply list_elem_of_In, list_elem_of_lookup in Hn.
    destruct Hn as [i Hi]. exists i. apply elem_of_match_nodes. eauto.
  - intros (i & Hi). apply elem_of_match_nodes in Hi. destruct Hi as (n & Hn & Hm).
    exists n. split; [|done]. apply list_elem_of_In, list_elem_of_lookup. eauto.
Qed.

Lemma extends_refl (g : graph) : extends g g.
Proof. by split. Qed.

Lemma extends_trans (g1 g2 g3 : graph) : extends g1 g2 -> extends g2 g3 -> extends g1 g3.
Proof. intros [H1 H2] [H3 H4]. split; by etrans. Qed.

Lemma preserving_compose (s1 s2 : graph -> graph) :
  preserving s1 -> preserving s2 -> preserving (fun g => s2 (s1 g)).
Proof.
  intros H1 H2 g. destruct (H1 g) as (E1 & K1 & P1 & R1).
  destruct (H2 (s1 g)) as (E2 & K2 & P2 & R2).
  split; [by eapply extends_trans|]. split; [by auto|]. split; [by auto|].
  intros t l1 v1 l2 v2 Hp1 Hp2 Hr. apply R2; auto.
Qed.

Lemma preserving_id : preserving (fun g => g).
Proof. intros g. split; [apply extends_refl|]. by repeat split. Qed.

Lemma preserving_fold {X} (step : graph -> X -> graph) (xs : list X) :
  (forall x, preserving (fun g => step g x)) ->
  preserving (fun g => fold_left step xs g).
Proof.
  intros Hs. induction xs as [|x xs IH]; [apply preserving_id|].
  simpl. apply (preserving_compose (fun g => step g x) (fun g => fold_left step xs g));
    [apply Hs|apply IH].
Qed.

(** [MERGE] of a node *)
Lemma preserving_merge_node (l : label) (v : pval) (on_create : list (string * prop)) :
  keys_ok l on_create -> preserving (merge_node l (key_of l) v on_create).
Proof.
  intros Hk g.
  destruct (merge_node_cases l v on_create g) as [[Hp ->]|[Hp ->]].
  { split; [apply extends_refl|]. by repeat split. }
  set (n := mk_node l _).
  assert (Hn : forall l0 v0, present l0 v0 g = true ->
                 matches l0 (key_of l0) v0 n = false).
  { intros l0 v0 H0. subst n. rewrite created_node_matches by done.
    destruct (decide (l = l0)) as [->|]; [|by rewrite bool_decide_eq_false_2].
    destruct (decide (v = v0)) as [->|]; [congruence|].
    rewrite (bool_decide_eq_false_2 (v = v0)) by done. apply andb_false_r. }
  split; [split; cbn; [by eexists|done]|].
  split; [|split].
  - intros Hkeyed l0 v0. cbn [nodes]. rewrite List.filter_app, length_app.
    specialize (Hkeyed l0 v0). cbn [List.filter].
    destruct (matches l0 (key_of l0) v0 n) eqn:Hm; cbn [length]; [|lia].
    subst n. rewrite created_node_matches in Hm by done.
    apply andb_true_iff in Hm. destruct Hm as [Hl Hv].
    apply bool_decide_eq_true in Hl, Hv. subst l0 v0.
    unfold present in Hp. apply existsb_filter_nil in Hp. rewrite Hp. simpl. lia.
  - intros l0 v0 H0. unfold present in *. cbn [nodes].
    rewrite existsb_app, H0. done.
  - intros t l1 v1 l2 v2 Hp1 Hp2 Hr i j Hi Hj. cbn [rels].
    apply elem_of_match_nodes in Hi, Hj.
    destruct Hi as (ni & Hi & Hmi), Hj as (nj & Hj & Hmj). cbn [nodes] in Hi, Hj.
    apply Hr; apply elem_of_match_nodes.
    + exists ni. split; [|done].
      apply lookup_app_Some in Hi. destruct Hi as [Hi|[_ Hi]]; [done|].
      apply list_lookup_singleton_Some in Hi. destruct Hi as [_ <-].
      rewrite (Hn l1 v1 Hp1) in Hmi. done.
    + exists nj. split; [|done].
      apply lookup_app_Some in Hj. destruct Hj as [Hj|[_ Hj]]; [done|].
      apply list_lookup_singleton_Some in Hj. destruct Hj as [_ <-].
      rewrite (Hn l2 v2 Hp2) in Hmj. done.
Qed.

Lemma merge_rel_rels (t : rel_type) (g : graph) (ends : nat * nat) :
  rels g `prefix_of` rels (merge_rel t g ends)
  /\ mk_rel ends.1 t ends.2 ∈ rels (merge_rel t g ends).
Proof.
  unfold merge_rel. case_bool_decide as H; cbn [rels]; [done|].
  split; [by eexists|]. apply elem_of_app. right. by apply list_elem_of_singleton.
Qed.

Lemma fold_merge_rel_rels (t : rel_type) (pairs : list (nat * nat)) (g : graph) :
  rels g `prefix_of` rels (fold_left (merge_rel t) pairs g)
  /\ (forall e, e ∈ pairs -> mk_rel e.1 t e.2 ∈ rels (fold_left (merge_rel t) pairs g)).
Proof.
  revert g. induction pairs as [|e pairs IH]; intros g; simpl.
  - split; [done|]. intros e He. by apply elem_of_nil in He.
  - destruct (IH (merge_rel t g e)) as [H1 H2].
    destruct (merge_rel_rels t g e) as [H3 H4].
    split; [by etrans|].
    intros e' He'. apply elem_of_cons in He'. destruct He' as [->|He']; [|by apply H2].
    destruct H1 as [k ->]. apply elem_of_app. by left.
Qed.

Lemma fold_merge_rel_noop (t : rel_type) (pairs : list (nat * nat)) (g : graph) :
  (forall e, e ∈ pairs -> mk_rel e.1 t e.2 ∈ rels g) ->
  fold_left (merge_rel t) pairs g = g.
Proof.
  induction pairs as [|e pairs IH]; intros H; simpl; [done|].
  assert (merge_rel t g e = g) as ->.
  { unfold merge_rel. rewrite bool_decide_eq_true_2; [done|]. apply H. by left. }
  apply IH. intros e' He'. apply H. by right.
Qed.

Lemma match_nodes_same (l : label) (k : string) (v : pval) (g g' : graph) :
  nodes g' = nodes g -> match_nodes l k v g' = match_nodes l k v g.
Proof. intros H. unfold match_nodes. by rewrite H. Qed.

(** [MERGE] of the relationships of the rows of a [MATCH] *)
Lemma preserving_merge_rels (t : rel_type) (pairs : graph -> list (nat * nat)) :
  preserving (fun g => fold_left (merge_rel t) (pairs g) g).
Proof.
  intros g. set (g' := fold_left _ _ g).
  assert (Hnodes : nodes g' = nodes g) by apply fold_merge_rel_nodes.
  destruct (fold_merge_rel_rels t (pairs g) g) as [Hrels _]. fold g' in Hrels.
  split; [split; [by rewrite Hnodes|done]|].
  split; [|split].
  - unfold keyed. by rewrite Hnodes.
  - unfold present. by rewrite Hnodes.
  - intros t' l1 v1 l2 v2 _ _ Hr i j Hi Hj.
    rewrite (match_nodes_same _ _ _ g g' Hnodes) in Hi.
    rewrite (match_nodes_same _ _ _ g g' Hnodes) in Hj.
    destruct Hrels as [k ->]. apply elem_of_app. left. by apply Hr.
Qed.

Lemma preserving_merge_wrote (filename : pval) (name : string) :
  preserving (merge_wrote filename name).
Proof. apply (preserving_merge_rels WROTE). Qed.

Lemma preserving_merge_has_topic (filename : pval) (name : string) :
  preserving (merge_has_topic filename name).
Proof. apply (preserving_merge_rels HAS_TOPIC). Qed.

End store.

(** ** [add_paper] as a whole *)

Section add_paper_more.
Import Graph Stated.
Variable encode : string -> list Q.

Lemma present_after_merge (l : label) (v : pval) (on_create : list (string * prop))
    (g : graph) :
  keys_ok l on_create -> present l v (merge_node l (key_of l) v on_create g) = true.
Proof.
  intros Hk. destruct (merge_node_cases l v on_create g) as [[Hp ->]|[Hp ->]]; [done|].
  unfold present. cbn [nodes]. rewrite existsb_app. cbn [existsb].
  rewrite created_node_matches by done.
  rewrite !bool_decide_eq_true_2 by done. apply orb_true_r.
Qed.

Lemma related_after_merge_wrote (filename : pval) (name : string) (g : graph) :
  related WROTE Author (VStr name) Graph.Paper filename (merge_wrote filename name g).
Proof.
  intros i j Hi Hj. unfold merge_wrote in *.
  set (pairs := _ ≫= _) in *.
  rewrite (match_nodes_same _ _ _ g _ (fold_merge_rel_nodes WROTE pairs g)) in Hi.
  rewrite (match_nodes_same _ _ _ g _ (fold_merge_rel_nodes WROTE pairs g)) in Hj.
  apply (proj2 (fold_merge_rel_rels WROTE pairs g) (i, j)).
  subst pairs. apply list_elem_of_bind. exists j. split; [|exact Hj].
  apply list_elem_of_bind. exists i. split; [|exact Hi].
  by apply list_elem_of_singleton.
Qed.

Lemma related_after_merge_has_topic (filename : pval) (name : string) (g : graph) :
  related HAS_TOPIC Graph.Paper filename Topic (VStr name)
    (merge_has_topic filename name g).
Proof.
  intros i j Hi Hj. unfold merge_has_topic in *.
  set (pairs := _ ≫= _) in *.
  rewrite (match_nodes_same _ _ _ g _ (fold_merge_rel_nodes HAS_TOPIC pairs g)) in Hi.
  rewrite (match_nodes_same _ _ _ g _ (fold_merge_rel_nodes HAS_TOPIC pairs g)) in Hj.
  apply (proj2 (fold_merge_rel_rels HAS_TOPIC pairs g) (i, j)).
  subst pairs. apply list_elem_of_bind. exists i. split; [|exact Hi].
  apply list_elem_of_bind. exists j. split; [|exact Hj].
  by apply list_elem_of_singleton.
Qed.

Lemma preserving_author_step (filename : pval) (author : string) :
  preserving (fun g => merge_wrote filename author
                         (merge_node Author "name" (VStr author) [] g)).
Proof.
  apply (preserving_compose (merge_node Author (key_of Author) (VStr author) [])
           (merge_wrote filename author));
    [apply preserving_merge_node; constructor|apply preserving_merge_wrote].
Qed.

Lemma preserving_topic_step (filename : pval) (topic : string) :
  preserving (fun g => merge_has_topic filename topic
                         (merge_node Topic "name" (VStr topic) [] g)).
Proof.
  apply (preserving_compose (merge_node Topic (key_of Topic) (VStr topic) [])
           (merge_has_topic filename topic));
    [apply preserving_merge_node; constructor|apply preserving_merge_has_topic].
Qed.

Lemma paper_keys_ok (title year doi embedding : prop) :
  keys_ok Graph.Paper
    [("title", title); ("year", year); ("embedding", embedding); ("doi", doi)].
Proof. repeat constructor; done. Qed.

Lemma preserving_add_paper (paper : paper_dict) :
  preserving (fun g => add_paper encode g paper).
Proof.
  unfold add_paper.
  apply (preserving_compose
           (fun g => fold_left _ _ (merge_node Graph.Paper "filename" _ _ g))
           (fun g => fold_left _ _ g)).
  - apply (preserving_compose (merge_node Graph.Paper (key_of Graph.Paper) _ _)
             (fun g => fold_left _ _ g)).
    + apply preserving_merge_node, paper_keys_ok.
    + apply preserving_fold. intros a. apply preserving_author_step.
  - apply preserving_fold. intros t. apply preserving_topic_step.
Qed.

(** A loop that establishes a fact for each element and keeps the facts
    of the elements before it. *)
Lemma fold_establishes {X} (step : graph -> X -> graph)
    (I : graph -> Prop) (E : X -> graph -> Prop) (xs : list X) :
  (forall g x, I g -> I (step g x)) ->
  (forall g x, I g -> E x (step g x)) ->
  (forall g x y, I g -> E x g -> E x (step g y)) ->
  forall g, I g ->
    I (fold_left step xs g) /\ forall x, x ∈ xs -> E x (fold_left step xs g).
Proof.
  intros HI HE HP.
  assert (Hkeep : forall ys g x, I g -> E x g -> E x (fold_left step ys g)).
  { induction ys as [|y ys IH]; intros g x Hg Hx; simpl; [done|].
    apply IH; [by apply HI|by apply HP]. }
  induction xs as [|x xs IH]; intros g Hg; simpl.
  - split; [done|]. intros x Hx. by apply elem_of_nil in Hx.
  - destruct (IH (step g x) (HI g x Hg)) as [H1 H2]. split; [done|].
    intros y Hy. apply elem_of_cons in Hy. destruct Hy as [->|Hy]; [|by apply H2].
    apply Hkeep; [by apply HI|by apply HE].
Qed.

Lemma fold_noop {X} (step : graph -> X -> graph) (xs : list X) (g : graph) :
  (forall x, x ∈ xs -> step g x = g) -> fold_left step xs g = g.
Proof.
  induction xs as [|x xs IH]; intros H; simpl; [done|].
  rewrite (H x) by (by left). apply IH. intros y Hy. apply H. by right.
Qed.

(** After a call the store holds all that the call writes. *)
Lemma settled_after (g : graph) (paper : paper_dict) :
  settled paper (add_paper encode g paper).
Proof.
  unfold settled, add_paper.
  set (f := VStr (default "No filename" (d_filename paper))).
  set (g1 := merge_node Graph.Paper "filename" f _ g).
  assert (H1 : present Graph.Paper f g1 = true)
    by apply (present_after_merge Graph.Paper f _ g), paper_keys_ok.
  set (astep := fun (g : graph) (author : string) =>
                  merge_wrote f author (merge_node Author "name" (VStr author) [] g)).
  set (tstep := fun (g : graph) (topic : string) =>
                  merge_has_topic f topic (merge_node Topic "name" (VStr topic) [] g)).
  set (authors := default ["No authors"] (d_authors paper)).
  set (topics := default ["No topics"] (d_topics paper)).
  destruct (fold_establishes astep
              (fun g => present Graph.Paper f g = true)
              (fun a g => present Author (VStr a) g = true
                          /\ related WROTE Author (VStr a) Graph.Paper f g)
              authors) with (g := g1) as [H2 H3]; [| | |exact H1|].
  { intros g0 a H. by apply (preserving_author_step f a g0). }
  { intros g0 a H. split.
    - unfold astep. apply (preserving_merge_wrote f a).
      apply (present_after_merge Author (VStr a) [] g0). constructor.
    - apply related_after_merge_wrote. }
  { intros g0 a b H [Ha Hr].
    destruct (preserving_author_step f b g0) as (_ & _ & P & R). split; auto. }
  destruct (fold_establishes tstep
              (fun g => present Graph.Paper f g = true
                        /\ forall a, a ∈ authors ->
                             present Author (VStr a) g = true
                             /\ related WROTE Author (VStr a) Graph.Paper f g)
              (fun t g => present Topic (VStr t) g = true
                          /\ related HAS_TOPIC Graph.Paper f Topic (VStr t) g)
              topics) with (g := fold_left astep authors g1) as [[H4 H5] H6];
    [| | |by split|].
  { intros g0 t [Hp Ha]. destruct (preserving_topic_step f t g0) as (_ & _ & P & R).
    split; [by apply P|]. intros a Hin. destruct (Ha a Hin). split; auto. }
  { intros g0 t _. split.
    - unfold tstep. apply (preserving_merge_has_topic f t).
      apply (present_after_merge Topic (VStr t) [] g0). constructor.
    - apply related_after_merge_has_topic. }
  { intros g0 t t' [Hp _] [Ht Hr].
    destruct (preserving_topic_step f t' g0) as (_ & _ & P & R). split; auto. }
  done.
Qed.

Lemma settled_kept (s : graph -> graph) (g : graph) (paper : paper_dict) :
  preserving s -> settled paper g -> settled paper (s g).
Proof.
  intros Hs (Hp & Ha & Ht). destruct (Hs g) as (_ & _ & P & R).
  split; [by apply P|]. split.
  - intros a Hin. destruct (Ha a Hin). split; auto.
  - intros t Hin. destruct (Ht t Hin). split; auto.
Qed.

(** A call on a store that holds all that it writes changes nothing. *)
Lemma settled_noop (g : graph) (paper : paper_dict) :
  settled paper g -> add_paper encode g paper = g.
Proof.
  intros (Hp & Ha & Ht). unfold add_paper.
  set (f := VStr (default "No filename" (d_filename paper))) in *.
  assert (merge_node Graph.Paper "filename" f
            [("title", PVal (VStr (default "No title" (d_title paper))));
             ("year", PVal (VStr (default "No year" (d_year paper))));
             ("embedding", PVec (encode (default "No keyphrase" (d_main_keyphrase paper))));
             ("doi", PVal (default (VStr "NO DOI") (d_doi paper)))] g = g) as ->.
  { unfold merge_node. unfold present in Hp. cbn [key_of] in Hp. by rewrite Hp. }
  rewrite (fold_noop _ (default ["No authors"] (d_authors paper)) g).
  - apply fold_noop. intros t Hin. destruct (Ht t Hin) as [Hpt Hr].
    assert (merge_node Topic "name" (VStr t) [] g = g) as ->.
    { unfold merge_node. unfold present in Hpt. cbn [key_of] in Hpt. by rewrite Hpt. }
    apply fold_merge_rel_noop. intros [i j] He.
    apply list_elem_of_bind in He. destruct He as (i' & He & Hi).
    apply list_elem_of_bind in He. destruct He as (j' & He & Hj).
    apply list_elem_of_singleton in He. injection He as -> ->. by apply Hr.
  - intros a Hin. destruct (Ha a Hin) as [Hpa Hr].
    assert (merge_node Author "name" (VStr a) [] g = g) as ->.
    { unfold merge_node. unfold present in Hpa. cbn [key_of] in Hpa. by rewrite Hpa. }
    apply fold_merge_rel_noop. intros [i j] He.
    apply list_elem_of_bind in He. destruct He as (j' & He & Hj).
    apply list_elem_of_bind in He. destruct He as (i' & He & Hi).
    apply list_elem_of_singleton in He. injection He as -> ->. by apply Hr.
Qed.

(** After a sequence of calls the store holds all that each of them
    writes. *)
Lemma settled_all (papers : list paper_dict) (g : graph) :
  forall paper, paper ∈ papers ->
    settled paper (fold_left (add_paper encode) papers g).
Proof.
  destruct (fold_establishes (add_paper encode) (fun _ => True)
              (fun paper g => settled paper g) papers) with (g := g) as [_ H];
    try done.
  - intros g0 paper _. apply settled_after.
  - intros g0 paper paper' _ H.
    apply (settled_kept (fun g => add_paper encode g paper'));
      [apply preserving_add_paper|exact H].
Qed.

Lemma stored_again (papers : list paper_dict) (g : graph) :
  fold_left (add_paper encode) papers (fold_left (add_paper encode) papers g)
  = fold_left (add_paper encode) papers g.
Proof.
  apply fold_noop. intros paper Hin. apply settled_noop. by apply settled_all.
Qed.

(** X9. A call of [add_paper] only adds to the store: every node and every
    relationship of the store is afterwards at its position, unchanged. *)
Theorem add_paper_only_adds (g : graph) (paper : paper_dict) :
  nodes g `prefix_of` nodes (add_paper encode g paper)
  /\ rels g `prefix_of` rels (add_paper encode g paper).
Proof. by destruct (preserving_add_paper paper g) as [[H1 H2] _]. Qed.

(** X10. In a store built from the empty store by calls of [add_paper], at
    most one [Paper] node has a given file name, at most one [Author] node
    and at most one [Topic] node has a given name. *)
Theorem add_paper_keeps_nodes_identified (papers : list paper_dict)
    (l : label) (v : pval) :
  (length (List.filter (matches l (key_of l) v)
             (nodes (fold_left (add_paper encode) papers Graph.empty))) <= 1)%nat.
Proof.
  assert (keyed (fold_left (add_paper encode) papers Graph.empty)) as H; [|apply H].
  apply (preserving_fold (add_paper encode) papers preserving_add_paper Graph.empty).
  intros l0 v0. simpl. lia.
Qed.

(** X11. After a call of [add_paper] the store has a [Paper] node of the
    file name; for every author of the call an [Author] node of that name
    with a [WROTE] relationship to a [Paper] node of the file name; and for
    every topic a [Topic] node of that name with a [HAS_TOPIC] relationship
    from a [Paper] node of the file name. *)
Theorem add_paper_relates (g : graph) (paper : paper_dict) :
  let g' := add_paper encode g paper in
  let filename := VStr (default "No filename" (d_filename paper)) in
  (exists p, p ∈ match_nodes Graph.Paper "filename" filename g')
  /\ (forall a, a ∈ default ["No authors"] (d_authors paper) ->
        exists i p, i ∈ match_nodes Author "name" (VStr a) g'
                    /\ p ∈ match_nodes Graph.Paper "filename" filename g'
                    /\ mk_rel i WROTE p ∈ rels g')
  /\ (forall t, t ∈ default ["No topics"] (d_topics paper) ->
        exists p j, p ∈ match_nodes Graph.Paper "filename" filename g'
                    /\ j ∈ match_nodes Topic "name" (VStr t) g'
                    /\ mk_rel p HAS_TOPIC j ∈ rels g').
Proof.
  intros g' filename. destruct (settled_after g paper) as (Hp & Ha & Ht).
  fold g' filename in Hp, Ha, Ht.
  apply present_elem in Hp. destruct Hp as [p Hp].
  split; [by exists p|]. split.
  - intros a Hin. destruct (Ha a Hin) as [Hpa Hr].
    apply present_elem in Hpa. destruct Hpa as [i Hi].
    exists i, p. repeat split; try done. by apply Hr.
  - intros t Hin. destruct (Ht t Hin) as [Hpt Hr].
    apply present_elem in Hpt. destruct Hpt as [j Hj].
    exists p, j. repeat split; try done. by apply Hr.
Qed.

(** X12. Storing the same papers again changes nothing: a second run of a
    sequence of calls of [add_paper] leaves the store of the first run as it
    is, nodes and relationships. *)
Theorem add_paper_again_changes_nothing (papers : list paper_dict) (g : graph) :
  fold_left (add_paper encode) papers (fold_left (add_paper encode) papers g)
  = fold_left (add_paper encode) papers g.
Proof. apply stored_again. Qed.

End add_paper_more.

(** ** The loading thread and the store *)

Section thread_more.
Import Graph Loader Cli Stated.
Variable fs : file_system.
Variable encode : string -> list Q.
Variable cosine_similarity : list Q -> list Q -> Q.
Variable extract_keywords : string -> list (string * Q).
Variable run_query : graph -> query -> list result_row.
Variable run_semantic : graph -> list Analysis.record.

Lemma fold_left_map_eq {X Y S} (f : S -> Y -> S) (h : X -> Y) (xs : list X) (a : S) :
  fold_left f (map h xs) a = fold_left (fun a x => f a (h x)) xs a.
Proof. revert a. induction xs as [|x xs IH]; intros a; simpl; [done|]. apply IH. Qed.

Lemma upload_loop_session (papers : list Loader.Paper) (st : cli) :
  session (fold_left
             (fun st paper =>
                let st := output_print ("Uploading file: " +:+ filename paper +:+ ".pdf") st in
                with_session (add_paper encode (session st) (paper_data paper)) st)
             papers st)
  = fold_left (add_paper encode) (map paper_data papers) (session st).
Proof.
  revert st. induction papers as [|p papers IH]; intros st; simpl; [done|].
  by rewrite IH.
Qed.

(** The store after a run of the loading thread: the papers that were
    loaded are stored in order; when the loading raises, nothing is. *)
Lemma thread_session (path' : string) (st : cli) :
  session (paper_loading_thread fs encode extract_keywords path' st)
  = match (papers_load fs extract_keywords path').2 with
    | Some papers => fold_left (add_paper encode) (map paper_data papers) (session st)
    | None => session st
    end.
Proof.
  unfold paper_loading_thread.
  destruct (papers_load fs extract_keywords path') as [calls loaded]. cbn [snd].
  set (st1 := fold_left _ calls st).
  assert (session st1 = session st) as H1
    by (apply (fold_left_preserves session); done).
  destruct loaded as [[|p papers]|]; [done| |done].
  cbn [session output_print output_write_end with_output].
  rewrite upload_loop_session. cbn [session with_all_papers]. by rewrite H1.
Qed.

(** X13. After a run of the loading thread in which the papers were
    loaded, the store holds, for every loaded paper, a [Paper] node of its
    file name, the nodes of its author and topics, and the relationships
    between them, whatever was loaded after it. *)
Theorem thread_stores_every_paper (path' : string) (st : cli)
    (out : list writer_call) (items : list Loader.Paper) (paper : Loader.Paper) :
  papers_load fs extract_keywords path' = (out, Some items) ->
  paper ∈ items ->
  settled (paper_data paper)
    (session (paper_loading_thread fs encode extract_keywords path' st)).
Proof.
  intros Hload Hin. rewrite thread_session, Hload. cbn [snd].
  apply settled_all. apply list_elem_of_fmap. by exists paper.
Qed.

(** X14. A second run of the loading thread on the same directory leaves
    the store as the first run left it. *)
Theorem thread_again_changes_nothing (path' : string) (st : cli) :
  session (paper_loading_thread fs encode extract_keywords path'
             (paper_loading_thread fs encode extract_keywords path' st))
  = session (paper_loading_thread fs encode extract_keywords path' st).
Proof.
  rewrite !thread_session.
  destruct (papers_load fs extract_keywords path').2 as [papers|]; [|done].
  apply stored_again.
Qed.

Lemma thread_preserving (path' : string) (st : cli) :
  extends (session st)
          (session (paper_loading_thread fs encode extract_keywords path' st))
  /\ (keyed (session st) ->
      keyed (session (paper_loading_thread fs encode extract_keywords path' st))).
Proof.
  rewrite thread_session.
  destruct (papers_load fs extract_keywords path').2 as [papers|].
  - destruct (preserving_fold (add_paper encode) (map paper_data papers)
                (preserving_add_paper encode) (session st)) as (H1 & H2 & _).
    by split.
  - split; [apply extends_refl|done].
Qed.

(** X15. No step of the interface removes or changes what is in the store:
    along every run, the nodes and the relationships of the store stay at
    their positions, and when each node was the only one of its label and
    identifying value it stays so. *)
Theorem steps_only_add (st st' : cli) :
  rtc (step fs encode cosine_similarity extract_keywords run_query run_semantic) st st' ->
  nodes (session st) `prefix_of` nodes (session st')
  /\ rels (session st) `prefix_of` rels (session st')
  /\ (keyed (session st) -> keyed (session st')).
Proof.
  intros Hrun.
  eapply (rtc_ind_r
            (fun st' => nodes (session st) `prefix_of` nodes (session st')
                        /\ rels (session st) `prefix_of` rels (session st')
                        /\ (keyed (session st) -> keyed (session st'))));
    [| |exact Hrun].
  - done.
  - clear st' Hrun. intros st1 st2 _ Hstep (Hn & Hr & Hk).
    destruct Hstep as [s st1|st1|t st1 Ht].
    + assert (session (text_changed s st1) = session st1) as ->; [|done].
      unfold text_changed, input_limit_length. by case_match.
    + destruct (command_handler_frame fs encode cosine_similarity run_query
                  run_semantic st1) as (-> & _). done.
    + destruct (thread_preserving (target_path t) st1) as [[Hn' Hr'] Hk'].
      split; [by etrans|]. split; [by etrans|]. auto.
Qed.

(** X16. Loading comes before storing: when one PDF of the directory does
    not open, the run of the thread ends with the exception and writes
    nothing to the store, also for the PDFs that did open, and the list of
    loaded papers is not set. *)
Theorem thread_failed_open_writes_nothing (path' f : string) (files : list string)
    (st : cli) :
  fs_exists fs (fs_expanduser fs path') = true ->
  fs_listdir fs (fs_expanduser fs path') = Some files ->
  f ∈ files ->
  PyStr.endswith ".pdf" (PyStr.lower f) = true ->
  fs_open fs (path_join (fs_expanduser fs path') f) = None ->
  session (paper_loading_thread fs encode extract_keywords path' st) = session st
  /\ all_papers (paper_loading_thread fs encode extract_keywords path' st)
     = all_papers st.
Proof.
  intros He Hl Hf Hpdf Hopen.
  assert ((papers_load fs extract_keywords path').2 = None) as Hnone.
  { unfold papers_load. rewrite He, Hl. cbn [negb].
    by apply (load_files_fails fs extract_keywords _ files [] [] f). }
  split; [by rewrite thread_session, Hnone|].
  unfold paper_loading_thread.
  destruct (papers_load fs extract_keywords path') as [calls loaded].
  cbn [snd] in Hnone. subst loaded.
  apply (fold_left_preserves all_papers). done.
Qed.

Lemma load_files_no_pdf (path' : string) (files : list string)
    (out : list writer_call) (items : list Loader.Paper) :
  Forall (fun f => PyStr.endswith ".pdf" (PyStr.lower f) = false) files ->
  (load_files fs extract_keywords path' files out items).2 = Some items.
Proof.
  intros H. revert out. induction H as [|f files Hf _ IH]; intros out; simpl; [done|].
  rewrite Hf. cbn [negb]. apply IH.
Qed.

(** X17. When the path does not exist, or no entry of the directory has a
    name ending with [.pdf], the run of the thread writes nothing to the
    store and the last line of the output says that no valid PDF file was
    found. *)
Theorem thread_without_pdf (path' : string) (st : cli) :
  fs_exists fs (fs_expanduser fs path') = false
  \/ (exists files,
        fs_listdir fs (fs_expanduser fs path') = Some files
        /\ Forall (fun f => PyStr.endswith ".pdf" (PyStr.lower f) = false) files) ->
  session (paper_loading_thread fs encode extract_keywords path' st) = session st
  /\ last (output_area (paper_loading_thread fs encode extract_keywords path' st))
     = Some (Str "No valid PDF file was found.", PyStr.nl).
Proof.
  intros H.
  assert ((papers_load fs extract_keywords path').2 = Some []) as Hnone.
  { unfold papers_load. destruct (fs_exists fs _) eqn:He; cbn [negb]; [|done].
    destruct H as [|(files & -> & Hfiles)]; [done|].
    by apply load_files_no_pdf. }
  split; [by rewrite thread_session, Hnone|].
  unfold paper_loading_thread.
  destruct (papers_load fs extract_keywords path') as [calls loaded].
  cbn [snd] in Hnone. subst loaded.
  cbn [output_print output_write_end with_all_papers with_output output_area].
  apply last_snoc.
Qed.

End thread_more.

(** ** The command handler: lines, tokens and flags *)

Section handler_more.
Import Graph Loader Cli.
Variable fs : file_system.
Variable encode : string -> list Q.
Variable cosine_similarity : list Q -> list Q -> Q.
Variable extract_keywords : string -> list (string * Q).
Variable run_query : graph -> query -> list result_row.
Variable run_semantic : graph -> list Analysis.record.

Lemma lstrip_blank (s : string) :
  all_chars PyStr.is_space s = true -> PyStr.lstrip_by PyStr.is_space s = "".
Proof.
  induction s as [|c s IH]; [done|]. simpl. intros H.
  apply andb_true_iff in H. destruct H as [-> H]. by apply IH.
Qed.

(** X18. A line that is empty or holds only whitespace is ignored: the
    handler leaves the whole state, the output included, as it is. *)
Theorem blank_line_is_ignored (st : cli) :
  all_chars PyStr.is_space (input_text st) = true ->
  command_handler fs encode cosine_similarity run_query run_semantic st = st.
Proof.
  intros H. unfold command_handler, PyStr.strip.
  rewrite (lstrip_blank _ H). reflexivity.
Qed.

(** X19. The result of a command does not depend on what the output area
    held: for a line of ASCII characters with at least one token the
    handler, started with any other content of the output area, ends in the
    same state. *)
Theorem output_is_cleared_first (st : cli) (o : list chunk) :
  PyStr.is_ascii (input_text st) = true ->
  PyStr.split 2 (PyStr.strip (input_text st)) <> [] ->
  command_handler fs encode cosine_similarity run_query run_semantic (with_output o st)
  = command_handler fs encode cosine_similarity run_query run_semantic st.
Proof.
  intros _ H. unfold command_handler. cbn [input_text with_output].
  destruct (PyStr.split 2 (PyStr.strip (input_text st))) as [|t0 rest]; [done|].
  reflexivity.
Qed.

(** X20. No line typed at the prompt writes to the store, to the list of
    loaded papers or to the input field, whatever the command and its
    arguments are. *)
Theorem commands_never_write (st : cli) :
  session (command_handler fs encode cosine_similarity run_query run_semantic st)
  = session st
  /\ all_papers (command_handler fs encode cosine_similarity run_query run_semantic st)
     = all_papers st
  /\ input_text (command_handler fs encode cosine_similarity run_query run_semantic st)
     = input_text st.
Proof.
  destruct (command_handler_frame fs encode cosine_similarity run_query run_semantic st)
    as (H1 & H2 & H3 & _).
  done.
Qed.

Lemma lower_fixed (w : string) :
  w ∈ ["vsearch"; "vsh"; "vst"; "vsa"; "vsp"] -> PyStr.lower w = w.
Proof.
  intros H. repeat (apply elem_of_cons in H; destruct H as [->|H]; [reflexivity|]).
  by apply elem_of_nil in H.
Qed.

Lemma search_without_flag (tokens : list string) (st : cli) :
  match tokens with
  | t0 :: _ => t0 ∉ ["vsearch"; "vsh"; "vst"; "vsa"; "vsp"]
  | [] => True
  end ->
  visualised (command_search run_query tokens st) = visualised st.
Proof.
  unfold command_search, command_search_by_title, command_search_by_author,
    command_search_by_topic.
  destruct tokens as [|t0 [|t1 more]]; [done|done|].
  intros H. rewrite (bool_decide_eq_false_2 _ H).
  repeat case_match; done.
Qed.

(** X21. A keyword search draws the graph only when its first token is
    typed as [vsearch] or [vsh], in lower case: for every other line that
    the handler passes to [command_search], among them [search], [st], [sa],
    [sp] and [VSEARCH], no call of [visualise_output] is made. *)
Theorem search_visualises_only_lower_case (st : cli) (t0 : string)
    (rest : list string) :
  PyStr.split 2 (PyStr.strip (input_text st)) = t0 :: rest ->
  dict_get (PyStr.lower t0) commands = Some self_command_search ->
  t0 ∉ ["vsearch"; "vsh"] ->
  visualised (command_handler fs encode cosine_similarity run_query run_semantic st)
  = visualised st.
Proof.
  intros Htok Hget Hflag. unfold command_handler. rewrite Htok. cbn zeta.
  rewrite Hget. cbn [call]. rewrite search_without_flag; [done|].
  intros Hin. apply Hflag.
  pose proof (lower_fixed t0 Hin) as Hlow. rewrite Hlow in Hget.
  repeat (apply elem_of_cons in Hin; destruct Hin as [->|Hin];
          [first [by left | by right; left | discriminate Hget]|]).
  by apply elem_of_nil in Hin.
Qed.

(** X22. On a line of ASCII characters the short forms [st], [sa] and
    [sp] search for the second token of the line only; what follows it on
    the line plays no part.  The long form searches for all that follows
    the search type. *)
Theorem short_search_uses_second_token (st : cli) (t0 t1 : string)
    (more : list string) :
  PyStr.is_ascii (input_text st) = true ->
  PyStr.split 2 (PyStr.strip (input_text st)) = t0 :: t1 :: more ->
  let st0 := with_invoked (invoked st ++ [self_command_search]) (output_clear st) in
  let st' := command_handler fs encode cosine_similarity run_query run_semantic st in
  (PyStr.lower t0 = "st" -> st' = command_search_by_title run_query t1 false st0)
  /\ (PyStr.lower t0 = "sa" -> st' = command_search_by_author run_query t1 false st0)
  /\ (PyStr.lower t0 = "sp" -> st' = command_search_by_topic run_query t1 false st0)
  /\ (PyStr.lower t0 = "search" ->
      forall t2 rest, more = t2 :: rest -> PyStr.lower t1 = "title" ->
        st' = command_search_by_title run_query t2 false st0).
Proof.
  intros _ Htok st0 st'. subst st'. unfold command_handler. rewrite Htok. cbn zeta.
  assert (Hflag : forall w, PyStr.lower t0 = w ->
                    w ∉ ["vsearch"; "vsh"; "vst"; "vsa"; "vsp"] ->
                    bool_decide (t0 ∈ ["vsearch"; "vsh"; "vst"; "vsa"; "vsp"]) = false).
  { intros w Hw Hn. apply bool_decide_eq_false_2. intros Hin.
    apply Hn. rewrite <- Hw. by rewrite (lower_fixed t0 Hin). }
  assert (Hcmd : forall w, w ∈ ["st"; "sa"; "sp"; "search"] ->
                   dict_get w commands = Some self_command_search).
  { intros w Hw.
    repeat (apply elem_of_cons in Hw; destruct Hw as [->|Hw]; [reflexivity|]).
    by apply elem_of_nil in Hw. }
  repeat split.
  - intros H. rewrite H, (Hcmd "st") by (apply (bool_decide_unpack _); vm_compute; exact I).
    cbn [call]. unfold command_search. cbn zeta. rewrite H.
    rewrite (Hflag "st" H) by (apply (bool_decide_unpack _); vm_compute; exact I).
    reflexivity.
  - intros H. rewrite H, (Hcmd "sa") by (apply (bool_decide_unpack _); vm_compute; exact I).
    cbn [call]. unfold command_search. cbn zeta. rewrite H.
    rewrite (Hflag "sa" H) by (apply (bool_decide_unpack _); vm_compute; exact I).
    reflexivity.
  - intros H. rewrite H, (Hcmd "sp") by (apply (bool_decide_unpack _); vm_compute; exact I).
    cbn [call]. unfold command_search. cbn zeta. rewrite H.
    rewrite (Hflag "sp" H) by (apply (bool_decide_unpack _); vm_compute; exact I).
    reflexivity.
  - intros H t2 rest -> Ht1.
    rewrite H, (Hcmd "search") by (apply (bool_decide_unpack _); vm_compute; exact I).
    cbn [call]. unfold command_search. cbn zeta. rewrite H, Ht1.
    rewrite (Hflag "search" H) by (apply (bool_decide_unpack _); vm_compute; exact I).
    reflexivity.
Qed.

(** X23. The table of a keyword search has one row of four cells for each
    row of the result, and no cell is empty: a missing or empty value is
    shown as two dashes.  Before the output window has been drawn the table
    is the empty string. *)
Theorem generate_table_str_cells (rows : list result_row) (st : cli) :
  match generate_table_str rows st with
  | Tabulate table headers =>
      render_info st <> None
      /\ headers = ["Title"; "Author(s)"; "Year"; "DOI"]
      /\ length table = length rows
      /\ Forall (fun row => length row = 4%nat
                            /\ Forall (fun c => exists s, c = CStr s /\ s <> "") row)
           table
  | Str s => render_info st = None /\ s = ""
  end.
Proof.
  assert (Hdash : forall v, or_dash v <> "").
  { intros [s|]; [|done]. simpl. by destruct (String.eqb_spec s ""). }
  unfold generate_table_str. destruct (render_info st); [|done].
  split; [done|]. split; [done|]. split; [by rewrite length_map|].
  apply Forall_forall. intros row Hrow.
  apply list_elem_of_fmap in Hrow. destruct Hrow as (r & -> & _).
  split; [done|]. repeat constructor; eexists; (split; [reflexivity|apply Hdash]).
Qed.

(** X24. The callback that limits the input settles at once: fired again
    on the text that it has set, as setting the text does, it changes
    nothing. *)
Theorem text_change_settles (s : string) (st : cli) :
  input_limit_length (text_changed s st) = text_changed s st.
Proof. unfold text_changed. apply input_limit_length_idempotent. Qed.

End handler_more.

(** ** visualisation.py: links and edges *)

Section visualisation_more.
Import Graph Loader Cli.
Variable encode : string -> list Q.
Variable cosine_similarity : list Q -> list Q -> Q.
Variable run_semantic : graph -> list Analysis.record.
Variable format_2f : Q -> string.

(** X25. The link of the node of a paper, for the DOI that the loader
    sets: a DOI that was found is linked as it is, the resolver address is
    not put in front of it a second time; the placeholder of a paper without
    DOI is linked behind the resolver address. *)
Theorem loaded_doi_link (paper : Loader.Paper) :
  exists d,
    doi (extract_doi paper) = VStr d
    /\ Visualisation.node_url (Some d)
       = Some (if String.eqb d "NO PROVIDED DOI"
               then "https://doi.org/NO PROVIDED DOI"
               else d).
Proof.
  unfold extract_doi. cbn [doi].
  destruct (Regex.search doi_pattern (text paper)) as [m|].
  - eexists. split; reflexivity.
  - destruct (Regex.search doi_pattern (title paper)) as [m|];
      eexists; split; reflexivity.
Qed.

Lemma loop_edge_lengths (central_label : string) (base_length scale : Q)
    (idx : nat) (papers : list Visualisation.paper) :
  Visualisation.edge_lengths
    (Visualisation.loop format_2f central_label true base_length scale idx papers)
  = map (fun p => Some (Visualisation.edge_length base_length scale
                          (default (1 # 2)%Q (Visualisation.Similarity p))))
        papers.
Proof.
  revert idx. induction papers as [|p papers IH]; intros idx; [done|].
  cbn [Visualisation.loop map]. unfold Visualisation.edge_lengths in *.
  rewrite omap_app, IH. reflexivity.
Qed.

Lemma take_sorted {A} (R : A -> A -> Prop) (n : nat) (l : list A) :
  StronglySorted R l -> StronglySorted R (take n l).
Proof.
  intros H. rewrite <- (take_drop n l) in H. by apply StronglySorted_app_1_l in H.
Qed.

(** The results of the semantic commands are ranked and reach the
    threshold. *)
Lemma semantic_results_ranked (query_text : string) (st : cli) :
  let results := semantic_results encode cosine_similarity run_semantic query_text st in
  StronglySorted (PyList.desc Analysis.similarity) results
  /\ Forall (fun r => (1 # 5 <= Analysis.similarity r)%Q) results.
Proof.
  unfold semantic_results, Analysis.find_papers_by_similarity.
  rewrite loop_collects, slice_to_nonneg by done. cbn [app]. split.
  - apply take_sorted, sorted_reverse_sorted.
  - apply Forall_take. rewrite sorted_reverse_perm.
    apply Forall_forall. intros r Hr.
    apply list_elem_of_In, in_map_iff in Hr. destruct Hr as (rec & <- & Hrec).
    apply filter_In in Hrec. destruct Hrec as [_ Hq].
    by apply qualifies_similarity.
Qed.

(** X26. In the graph of [vsimsearch] the edge of each result has the length
    50 + (1 - similarity) * 200, which is at most 210 as every result reaches
    the threshold, and the edges do not get shorter down the ranking: a more
    similar paper is never drawn further from the centre. *)
Theorem vsimsearch_edges (query_text : string) (st : cli) :
  let results := semantic_results encode cosine_similarity run_semantic query_text st in
  let edge := fun r => Visualisation.edge_length 50 200 (Analysis.similarity r) in
  Visualisation.edge_lengths
    (Visualisation.run format_2f (VisSimilarity results query_text))
  = map (fun r => Some (edge r)) results
  /\ Forall (fun r => (edge r <= 210)%Q) results
  /\ StronglySorted (fun a b => (edge a <= edge b)%Q) results.
Proof.
  intros results edge.
  destruct (semantic_results_ranked query_text st) as [Hsorted Hall].
  fold results in Hsorted, Hall.
  split; [|split].
  - cbn [Visualisation.run]. unfold Visualisation.visualise_output.
    change (Visualisation.edge_lengths (?c :: ?l ++ ?w))
      with (Visualisation.edge_lengths ([c] ++ l ++ w)).
    unfold Visualisation.edge_lengths.
    rewrite !omap_app. fold (Visualisation.edge_lengths
      (Visualisation.loop format_2f query_text true 50 200 1
         (map Visualisation.of_similarity_row results))).
    rewrite loop_edge_lengths. cbn. rewrite app_nil_r, map_map.
    apply map_ext. by intros [[[t a] d] s].
  - eapply Forall_impl; [exact Hall|]. intros r Hr. subst edge. cbn beta in *.
    unfold Visualisation.edge_length. lra.
  - clear Hall. induction Hsorted as [|r l Hl IH Hr]; constructor; [exact IH|].
    eapply Forall_impl; [exact Hr|]. intros r' Hr'. subst edge. cbn beta in *.
    unfold PyList.desc in Hr'. unfold Visualisation.edge_length. lra.
Qed.

End visualisation_more.

(** ** The further properties at the sample environment *)

Lemma load_year_witness :
  PyStr.is_ascii "D:20140101120000" = true
  /\ exists paper,
      Loader.load Sample.fs Loader.Paper_init "papers/a.pdf" = Some (paper, true)
      /\ (Loader.year paper = ""
          \/ (String.length (Loader.year paper) = 4%nat
              /\ Loader.all_chars PyStr.is_digit (Loader.year paper) = true)).
Proof.
  split; [reflexivity|].
  apply (load_year Sample.fs Loader.Paper_init "papers/a.pdf" Sample.doc).
  - reflexivity.
  - vm_compute. reflexivity.
Defined.

Lemma basename_path_join_witness :
  Loader.has_slash "a.pdf" = false
  /\ Loader.basename (Loader.path_join "papers" "a.pdf") = "a.pdf".
Proof.
  split; [reflexivity|]. apply (basename_path_join "papers" "a.pdf"). reflexivity.
Defined.

Lemma papers_load_lists_pdfs_witness :
  Loader.fs_listdir Sample.fs "papers" = Some ["a.pdf"; "notes.txt"]
  /\ map Loader.path [Sample.paper] = ["papers/a.pdf"]
  /\ map Loader.filename [Sample.paper] = ["a.pdf"].
Proof.
  split; [reflexivity|].
  destruct (papers_load_lists_pdfs Sample.fs Sample.extract_keywords "papers"
              ["a.pdf"; "notes.txt"]
              (Loader.papers_load Sample.fs Sample.extract_keywords "papers").1
              [Sample.paper]) as [H1 H2].
  - reflexivity.
  - reflexivity.
  - vm_compute. reflexivity.
  - split; [exact H1|]. apply H2. repeat constructor.
Defined.

Lemma papers_load_fields_witness :
  (Loader.papers_load Sample.fs Sample.extract_keywords "papers").2 = Some [Sample.paper]
  /\ Forall (Stated.made_of_document Sample.fs Sample.extract_keywords) [Sample.paper].
Proof.
  split; [vm_compute; reflexivity|].
  apply (papers_load_fields Sample.fs Sample.extract_keywords "papers"
           (Loader.papers_load Sample.fs Sample.extract_keywords "papers").1).
  vm_compute. reflexivity.
Defined.

Lemma extract_doi_strips_punctuation_witness :
  PyStr.is_ascii (Loader.text Sample.paper) = true
  /\ Loader.first_doi (Loader.text Sample.paper) = Some "10.1016/j.dr.2014.11.001."
  /\ exists kept stripped,
      Loader.doi (Loader.extract_doi Sample.paper)
        = Graph.VStr ("https://doi.org/" +:+ kept)
      /\ "10.1016/j.dr.2014.11.001." = kept +:+ stripped
      /\ Loader.all_chars (fun c => PyStr.mem c Loader.doi_trailing) stripped = true
      /\ PyStr.rstrip Loader.doi_trailing kept = kept.
Proof.
  split; [reflexivity|]. split; [vm_compute; reflexivity|].
  apply (extract_doi_strips_punctuation Sample.paper "10.1016/j.dr.2014.11.001.").
  - reflexivity.
  - vm_compute. reflexivity.
Defined.

Lemma thread_stores_every_paper_witness :
  (Loader.papers_load Sample.fs Sample.extract_keywords "papers").2 = Some [Sample.paper]
  /\ Stated.settled (Cli.paper_data Sample.paper)
       (Cli.session (Cli.paper_loading_thread Sample.fs Sample.encode
                       Sample.extract_keywords "papers" (Sample.typed ""))).
Proof.
  split; [vm_compute; reflexivity|].
  apply (thread_stores_every_paper Sample.fs Sample.encode Sample.extract_keywords
           "papers" (Sample.typed "")
           (Loader.papers_load Sample.fs Sample.extract_keywords "papers").1
           [Sample.paper] Sample.paper).
  - vm_compute. reflexivity.
  - apply list_elem_of_singleton. reflexivity.
Defined.

Lemma steps_only_add_witness :
  let st := Cli.with_threads [Cli.mk_thread true "papers"]
              (Cli.with_input "lp" (Cli.init Sample.welcome Sample.stored)) in
  let st1 := Cli.paper_loading_thread Sample.fs Sample.encode Sample.extract_keywords
               "papers" st in
  let st' := Cli.command_handler Sample.fs Sample.encode Sample.cosine_similarity
               Sample.one_row Sample.no_records st1 in
  (length (Graph.nodes (Cli.session st)) = 3
   /\ length (Graph.rels (Cli.session st)) = 2
   /\ length (Graph.nodes (Cli.session st')) = 5
   /\ length (Graph.rels (Cli.session st')) = 5)%nat
  /\ Graph.nodes (Cli.session st) `prefix_of` Graph.nodes (Cli.session st')
  /\ Graph.rels (Cli.session st) `prefix_of` Graph.rels (Cli.session st').
Proof.
  intros st st1 st'.
  split; [repeat split; vm_compute; reflexivity|].
  assert (Cli.mk_thread true "papers" ∈ Cli.threads st) as Ht
    by (apply list_elem_of_singleton; reflexivity).
  destruct (steps_only_add Sample.fs Sample.encode Sample.cosine_similarity
              Sample.extract_keywords Sample.one_row Sample.no_records st st')
    as (Hn & Hr & _).
  - eapply rtc_l; [exact (Cli.step_thread _ _ _ _ _ _ _ st Ht)|].
    apply rtc_once. exact (Cli.step_accept _ _ _ _ _ _ st1).
  - split; [exact Hn|exact Hr].
Defined.

Lemma thread_failed_open_writes_nothing_witness :
  Loader.fs_open Damaged.fs "papers/b.pdf" = None
  /\ Cli.session (Cli.paper_loading_thread Damaged.fs Sample.encode
                    Sample.extract_keywords "papers" (Sample.typed ""))
     = Graph.empty.
Proof.
  split; [reflexivity|].
  refine (proj1 (thread_failed_open_writes_nothing Damaged.fs Sample.encode
                   Sample.extract_keywords "papers" "b.pdf" ["a.pdf"; "b.pdf"]
                   (Sample.typed "") _ _ _ _ _)).
  - reflexivity.
  - reflexivity.
  - apply elem_of_cons. right. apply list_elem_of_singleton. reflexivity.
  - reflexivity.
  - reflexivity.
Defined.

Lemma thread_without_pdf_witness :
  Loader.fs_exists Sample.fs "nowhere" = false
  /\ last (Cli.output_area (Cli.paper_loading_thread Sample.fs Sample.encode
                              Sample.extract_keywords "nowhere" (Sample.typed "")))
     = Some (Cli.Str "No valid PDF file was found.", PyStr.nl).
Proof.
  split; [reflexivity|].
  refine (proj2 (thread_without_pdf Sample.fs Sample.encode Sample.extract_keywords
                   "nowhere" (Sample.typed "") _)).
  left. reflexivity.
Defined.

Lemma blank_line_is_ignored_witness :
  Loader.all_chars PyStr.is_space "   " = true
  /\ Cli.command_handler Sample.fs Sample.encode Sample.cosine_similarity
       Sample.no_rows Sample.no_records (Sample.typed "   ")
     = Sample.typed "   ".
Proof.
  split; [reflexivity|].
  apply (blank_line_is_ignored Sample.fs Sample.encode Sample.cosine_similarity
           Sample.no_rows Sample.no_records (Sample.typed "   ")).
  reflexivity.
Defined.

Lemma output_is_cleared_first_witness :
  PyStr.is_ascii "help" = true
  /\ PyStr.split 2 (PyStr.strip "help") = ["help"]
  /\ Cli.command_handler Sample.fs Sample.encode Sample.cosine_similarity
       Sample.no_rows Sample.no_records (Cli.with_output [] (Sample.typed "help"))
     = Cli.command_handler Sample.fs Sample.encode Sample.cosine_similarity
         Sample.no_rows Sample.no_records (Sample.typed "help").
Proof.
  split; [reflexivity|]. split; [reflexivity|].
  apply (output_is_cleared_first Sample.fs Sample.encode Sample.cosine_similarity
           Sample.no_rows Sample.no_records (Sample.typed "help") []).
  - reflexivity.
  - discriminate.
Defined.

Lemma search_visualises_only_lower_case_witness :
  PyStr.split 2 (PyStr.strip "VSEARCH title graphs") = ["VSEARCH"; "title"; "graphs"]
  /\ Cli.visualised
       (Cli.command_handler Sample.fs Sample.encode Sample.cosine_similarity
          Sample.one_row Sample.no_records (Sample.typed "vsearch title graphs"))
     = [Cli.VisRows [Sample.row] "graphs"]
  /\ Cli.visualised
       (Cli.command_handler Sample.fs Sample.encode Sample.cosine_similarity
          Sample.one_row Sample.no_records (Sample.typed "VSEARCH title graphs"))
     = [].
Proof.
  split; [reflexivity|]. split; [vm_compute; reflexivity|].
  apply (search_visualises_only_lower_case Sample.fs Sample.encode
           Sample.cosine_similarity Sample.one_row Sample.no_records
           (Sample.typed "VSEARCH title graphs") "VSEARCH" ["title"; "graphs"]).
  - reflexivity.
  - reflexivity.
  - apply (bool_decide_unpack _). vm_compute. exact I.
Defined.

Lemma short_search_uses_second_token_witness :
  PyStr.is_ascii "st deep learning" = true
  /\ PyStr.split 2 (PyStr.strip "st deep learning") = ["st"; "deep"; "learning"]
  /\ Cli.command_handler Sample.fs Sample.encode Sample.cosine_similarity
       Sample.one_row Sample.no_records (Sample.typed "st deep learning")
     = Cli.command_search_by_title Sample.one_row "deep" false
         (Cli.with_invoked [Cli.self_command_search]
            (Cli.output_clear (Sample.typed "st deep learning"))).
Proof.
  split; [reflexivity|]. split; [reflexivity|].
  refine (proj1 (short_search_uses_second_token Sample.fs Sample.encode
                   Sample.cosine_similarity Sample.one_row Sample.no_records
                   (Sample.typed "st deep learning") "st" "deep" ["learning"] _ _) _).
  - reflexivity.
  - reflexivity.
  - reflexivity.
Defined.
